(** * preview_server.py: the GO-ACS preview server

  A shallow embedding of the request handler [GOACSHandler] of
  [preview_server.py] and the properties of its routing table.

  Python values are modelled as follows.
  - [str] and [bytes] are [string]: a sequence of characters with codes
    below 256.  [http.server] decodes the request line as ISO-8859-1, so
    [self.path] is exactly such a sequence; every literal of the program is
    ASCII.
  - [int] is [Z].
  - a [float] is identified by its [repr], which is what [json.dumps]
    prints; the program never computes with floats.
  - a [dict] is an association list in insertion order.
  - an uncaught exception ends the handler with no response written.
  - the functions of the standard library that parse ([urlparse],
    [json.loads]) and the file system are taken from a [runtime]; writing
    to the socket is assumed to succeed. *)

From Stdlib Require Import ZArith List Bool Ascii String Lia.
From Stdlib Require Import Numbers.DecimalString.
Import ListNotations.

Open Scope Z_scope.
Open Scope string_scope.

(** ** Python built-ins used by the handler *)

Module Py.

Definition dquote : ascii := ascii_of_nat 34.
Definition backslash : ascii := ascii_of_nat 92.

(** [s.startswith(p)] *)
Definition startswith (s p : string) : bool := String.prefix p s.

(** [s.endswith(p)] *)
Definition endswith (s p : string) : bool :=
  let n := String.length s in
  let m := String.length p in
  (m <=? n)%nat && String.eqb (substring (n - m) m s) p.

(** [p in s] for two strings *)
Fixpoint contains (p s : string) : bool :=
  String.prefix p s ||
  match s with
  | EmptyString => false
  | String _ t => contains p t
  end.

(** [s.split(sep)] for a one-character separator *)
Fixpoint split (sep : ascii) (s : string) : list string :=
  match s with
  | EmptyString => [EmptyString]
  | String c t =>
      if Ascii.eqb c sep then EmptyString :: split sep t
      else match split sep t with
           | h :: r => String c h :: r
           | [] => [String c EmptyString]
           end
  end.

(** [l[-1]] on the result of a split (never empty) *)
Definition last_item (l : list string) : string := List.last l EmptyString.

Definition is_ascii_digit (c : ascii) : bool :=
  let n := nat_of_ascii c in ((48 <=? n) && (n <=? 57))%nat.

(** The characters below 256 for which [str.isdigit] holds: the decimal
    digits and the superscripts two, three and one (U+00B2, U+00B3,
    U+00B9), which have a digit value but are not decimal characters. *)
Definition is_digit_char (c : ascii) : bool :=
  let n := nat_of_ascii c in
  is_ascii_digit c || (n =? 178)%nat || (n =? 179)%nat || (n =? 185)%nat.

Fixpoint all_chars (p : ascii -> bool) (s : string) : bool :=
  match s with
  | EmptyString => true
  | String c t => p c && all_chars p t
  end.

(** [s.isdigit()]: at least one character, all of them digits *)
Definition isdigit (s : string) : bool :=
  match s with
  | EmptyString => false
  | _ => all_chars is_digit_char s
  end.

(** White space skipped by [int(s)] at both ends of [s] *)
Definition is_int_space (c : ascii) : bool :=
  let n := nat_of_ascii c in
  ((9 <=? n) && (n <=? 13) || (n =? 32) || (n =? 133) || (n =? 160))%nat.

Fixpoint lstrip (s : string) : string :=
  match s with
  | String c t => if is_int_space c then lstrip t else s
  | EmptyString => EmptyString
  end.

Fixpoint rstrip (s : string) : string :=
  match s with
  | EmptyString => EmptyString
  | String c t =>
      match rstrip t with
      | EmptyString => if is_int_space c then EmptyString else String c EmptyString
      | t' => String c t'
      end
  end.

Definition digit_value (c : ascii) : Z := Z.of_nat (nat_of_ascii c) - 48.

(** The digits of a base 10 literal, most significant first: [acc] is the
    value read so far, [after_digit] tells whether the previous character
    was a digit (an underscore is allowed only between two digits). *)
Fixpoint int_digits (acc : Z) (after_digit : bool) (s : string) : option Z :=
  match s with
  | EmptyString => if after_digit then Some acc else None
  | String c t =>
      if is_ascii_digit c then int_digits (10 * acc + digit_value c) true t
      else if Ascii.eqb c "_" then
        if after_digit then int_digits acc false t else None
      else None
  end.

(** [int(s)] for a string, with no limit on the length of the literal (as
    before Python 3.11, or after [sys.set_int_max_str_digits(0)]): [None] is
    [ValueError]. *)
Definition int (s : string) : option Z :=
  match rstrip (lstrip s) with
  | String "+" t => int_digits 0 false t
  | String "-" t => option_map Z.opp (int_digits 0 false t)
  | t => int_digits 0 false t
  end.

(** The digits the interpreter counts in a literal: every decimal digit,
    leading zeros too; sign, white space and underscores are not counted. *)
Fixpoint digit_count (s : string) : nat :=
  match s with
  | EmptyString => 0%nat
  | String c t => ((if is_ascii_digit c then 1 else 0) + digit_count t)%nat
  end.

(** [int(s)] under the limit [sys.get_int_max_str_digits()]: with a limit
    other than 0 (4300 by default from Python 3.11), a literal of more
    digits raises [ValueError] as well. *)
Definition int_within (max_str_digits : nat) (s : string) : option Z :=
  if ((0 <? max_str_digits) && (max_str_digits <? digit_count s))%nat then None
  else int s.

(** [str(n)] for an integer *)
Definition str (n : Z) : string := NilZero.string_of_int (Z.to_int n).

Definition lower_char (c : ascii) : ascii :=
  let n := nat_of_ascii c in
  if ((65 <=? n) && (n <=? 90))%nat then ascii_of_nat (n + 32) else c.

(** [s.lower()] on ASCII letters; the handler calls it only on a key of
    [valid_users]. *)
Fixpoint lower (s : string) : string :=
  match s with
  | EmptyString => EmptyString
  | String c t => String (lower_char c) (lower t)
  end.

End Py.

(** ** JSON values and [json.dumps] *)

#[warnings="-register-all"]
Inductive json : Type :=
| JNull
| JBool (b : bool)
| JInt (n : Z)
| JFloat (repr : string)
| JStr (s : string)
| JList (items : list json)
| JDict (entries : list (string * json)).

Module Json.

Definition hex_digit (n : nat) : ascii :=
  nth n (list_ascii_of_string "0123456789abcdef") "0"%char.

(** One character of a string literal, as [json.dumps] writes it with
    [ensure_ascii=True]: quote and backslash get a backslash, the control
    characters their short form, everything else outside the printable ASCII
    range a [\u00xx] escape. *)
Definition escape_char (c : ascii) : string :=
  let n := nat_of_ascii c in
  let esc (x : ascii) := String Py.backslash (String x EmptyString) in
  if (n =? 34)%nat then esc Py.dquote
  else if (n =? 92)%nat then esc Py.backslash
  else if (n =? 10)%nat then esc "n"%char
  else if (n =? 13)%nat then esc "r"%char
  else if (n =? 9)%nat then esc "t"%char
  else if (n =? 8)%nat then esc "b"%char
  else if (n =? 12)%nat then esc "f"%char
  else if ((32 <=? n) && (n <=? 126))%nat then String c EmptyString
  else String Py.backslash
         (String "u" (String "0" (String "0"
            (String (hex_digit (n / 16)) (String (hex_digit (n mod 16)) EmptyString))))).

Fixpoint escape (s : string) : string :=
  match s with
  | EmptyString => EmptyString
  | String c t => escape_char c ++ escape t
  end.

Definition quoted (s : string) : string :=
  String Py.dquote (escape s ++ String Py.dquote EmptyString).

(** [json.dumps(v)] with the default separators *)
Fixpoint dumps (v : json) : string :=
  match v with
  | JNull => "null"
  | JBool true => "true"
  | JBool false => "false"
  | JInt n => Py.str n
  | JFloat r => r
  | JStr s => quoted s
  | JList l =>
      "[" ++ (fix items (l : list json) : string :=
                match l with
                | [] => ""
                | x :: r => dumps x ++ match r with [] => "" | _ => ", " ++ items r end
                end) l ++ "]"
  | JDict d =>
      "{" ++ (fix entries (d : list (string * json)) : string :=
                match d with
                | [] => ""
                | (k, x) :: r =>
                    quoted k ++ ": " ++ dumps x
                    ++ match r with [] => "" | _ => ", " ++ entries r end
                end) d ++ "}"
  end.

(** [d.get(k)]: the first entry for [k] *)
Fixpoint lookup (k : string) (d : list (string * json)) : option json :=
  match d with
  | [] => None
  | (k', v) :: r => if String.eqb k' k then Some v else lookup k r
  end.

(** [v == s] for a string literal [s] *)
Definition eq_str (v : json) (s : string) : bool :=
  match v with
  | JStr t => String.eqb t s
  | _ => false
  end.

End Json.

(** ** Exceptions *)

Inductive exception : Type :=
| ValueError
| TypeError
| AttributeError
| KeyError
| OSError
| OverflowError
| MemoryError.

Definition raises (A : Type) : Type := (exception + A)%type.

Definition ret {A : Type} (a : A) : raises A := inr a.
Definition raise {A : Type} (e : exception) : raises A := inl e.
Definition bind {A B : Type} (m : raises A) (k : A -> raises B) : raises B :=
  match m with
  | inl e => inl e
  | inr a => k a
  end.

Notation "x <- m ;; k" := (bind m (fun x => k))
  (at level 61, m at next level, right associativity).

(** ** What the handler takes from its environment *)

(** The result of [open(filepath, 'rb')] followed by [f.read()] *)
Inductive file_read : Type :=
| Content (c : string)
| FileNotFoundError
| OtherOSError.

(** The standard library functions the handler calls, the configuration
    of the interpreter and the state of the file system under the working
    directory.
    - [urlparse_path] and [json_loads]: [None] stands for a raised
      exception.
    - [int_max_str_digits] is [sys.get_int_max_str_digits()], 0 for no
      limit.
    - [read_failure n] is the exception [self.rfile.read(n)] raises when it
      cannot have a buffer of [n] bytes: [OverflowError] beyond the size of
      a [bytes] object, [MemoryError] when memory is short; [None] when the
      buffer is had. *)
Record runtime : Type := {
  urlparse_path : string -> option string;
  json_loads : string -> option json;
  os_path_exists : string -> bool;
  read_file : string -> file_read;
  int_max_str_digits : nat;
  read_failure : Z -> option exception
}.

(** The request as the handler reads it: [self.path],
    [self.headers.get('Content-Length')] and the bytes left on [self.rfile]. *)
Record request : Type := {
  self_path : string;
  content_length : option string;
  rfile : string
}.

(** The status line, the headers passed to [send_header] and the bytes
    written to [self.wfile].  ([send_response] adds the [Server] and [Date]
    headers of the library, which are left out.) *)
Record response : Type := {
  status : Z;
  headers : list (string * string);
  body : string
}.

(** How a handler ends.  [Super_do_GET] only records that the request was
    handed over to [SimpleHTTPRequestHandler.do_GET]: what the library then
    answers (200, 301, 304, 404, or an exception of its own) depends on
    [self.path], on other headers and on the files, and is not modelled;
    nothing is stated about a request that is handed over beyond the fact
    that it is. *)
Inductive outcome : Type :=
| Sent (r : response)                             (* a response of this file *)
| SendError (code : Z) (message : option string)  (* [self.send_error(...)] *)
| Super_do_GET                                    (* [super().do_GET()] *)
| Uncaught (e : exception).                       (* the handler is aborted *)

Inductive method : Type := GET | POST | PUT.

(** ** The literal responses *)

Module Fixture.

(** GET /api/dashboard/stats (line 59) *)
Definition dashboard_stats : json :=
  JDict [
    ("totalDevices", JInt 5);
    ("onlineDevices", JInt 3);
    ("offlineDevices", JInt 2);
    ("pendingTasks", JInt 1);
    ("devicesByModel", JDict [("HG8245H", JInt 2); ("F660", JInt 2); ("AN5506", JInt 1)])].

(** GET /api/devices (line 72) *)
Definition devices : json :=
  JDict [
    ("devices", JList [
      JDict [("id", JInt 1); ("serialNumber", JStr "HWTC12345678"); ("manufacturer", JStr "Huawei"); ("modelName", JStr "HG8245H"); ("status", JStr "online"); ("ipAddress", JStr "192.168.1.1"); ("lastContact", JStr "2026-01-04T22:50:00Z"); ("latitude", JFloat "-6.2088"); ("longitude", JFloat "106.8456"); ("address", JStr "Jl. Sudirman No. 1, Jakarta")];
      JDict [("id", JInt 2); ("serialNumber", JStr "ZTEGC87654321"); ("manufacturer", JStr "ZTE"); ("modelName", JStr "F660"); ("status", JStr "online"); ("ipAddress", JStr "192.168.1.2"); ("lastContact", JStr "2026-01-04T22:45:00Z"); ("latitude", JFloat "-6.1751"); ("longitude", JFloat "106.865"); ("address", JStr "Jl. Thamrin No. 10, Jakarta")];
      JDict [("id", JInt 3); ("serialNumber", JStr "FHTT11223344"); ("manufacturer", JStr "FiberHome"); ("modelName", JStr "AN5506-04-F"); ("status", JStr "offline"); ("ipAddress", JStr "192.168.1.3"); ("lastContact", JStr "2026-01-04T20:00:00Z"); ("latitude", JFloat "-6.2297"); ("longitude", JFloat "106.8295"); ("address", JStr "Jl. Gatot Subroto No. 5, Jakarta")];
      JDict [("id", JInt 4); ("serialNumber", JStr "HWTC99887766"); ("manufacturer", JStr "Huawei"); ("modelName", JStr "HG8245H5"); ("status", JStr "online"); ("ipAddress", JStr "192.168.1.4"); ("lastContact", JStr "2026-01-04T22:52:00Z"); ("latitude", JFloat "-6.1862"); ("longitude", JFloat "106.8225"); ("address", JStr "Jl. Kebon Sirih No. 15, Jakarta")];
      JDict [("id", JInt 5); ("serialNumber", JStr "ZTEGC55443322"); ("manufacturer", JStr "ZTE"); ("modelName", JStr "F670L"); ("status", JStr "offline"); ("ipAddress", JStr "192.168.1.5"); ("lastContact", JStr "2026-01-04T18:00:00Z"); ("latitude", JFloat "-6.2615"); ("longitude", JFloat "106.8106"); ("address", JStr "Jl. TB Simatupang No. 22, Jakarta")]]);
    ("total", JInt 5)].

(** GET /api/devices/.../wifi (line 84) *)
Definition wifi : json :=
  JDict [("ssid", JStr "MyWiFi_Network"); ("password", JStr "password123"); ("ssid5g", JStr "MyWiFi_5G"); ("password5g", JStr "password123"); ("channel", JInt 6); ("enabled", JBool true)].

(** GET /api/devices/.../wan (line 94) *)
Definition wan : json :=
  JList [
    JDict [("id", JInt 1); ("name", JStr "wan1_pppoe"); ("connectionType", JStr "PPPoE"); ("status", JStr "Connected"); ("vlan", JInt 100)];
    JDict [("id", JInt 2); ("name", JStr "wan2_bridge"); ("connectionType", JStr "Bridge"); ("status", JStr "Connected"); ("vlan", JInt 200)]].

(** GET /api/devices/.../parameters (line 100) *)
Definition parameters : json :=
  JList [
    JDict [("path", JStr "InternetGatewayDevice.DeviceInfo.UpTime"); ("value", JStr "86400")];
    JDict [("path", JStr "InternetGatewayDevice.DeviceInfo.SoftwareVersion"); ("value", JStr "V3R019C10S120")];
    JDict [("path", JStr "InternetGatewayDevice.LANDevice.1.WLANConfiguration.1.SSID"); ("value", JStr "MyWiFi_Network")]].

(** GET /api/devices/.../pon (line 107) *)
Definition pon : json :=
  JDict [("rxPower", JFloat "-18.5"); ("txPower", JFloat "2.3"); ("onuId", JInt 1); ("distance", JFloat "2.5"); ("temperature", JInt 45); ("voltage", JFloat "3.3"); ("biasCurrent", JInt 15)].

(** GET /api/devices/.../clients (line 118) *)
Definition clients : json :=
  JDict [
    ("clients", JList [
      JDict [("name", JStr "iPhone 15 Pro"); ("mac", JStr "A4:B2:C1:D3:E5:F7"); ("ip", JStr "192.168.1.101"); ("type", JStr "phone"); ("rssi", JInt (-45))];
      JDict [("name", JStr "MacBook Pro"); ("mac", JStr "B8:C3:D2:E4:F6:A1"); ("ip", JStr "192.168.1.102"); ("type", JStr "laptop"); ("rssi", JInt (-52))];
      JDict [("name", JStr "Samsung Galaxy Tab"); ("mac", JStr "C6:D4:E3:F5:A2:B8"); ("ip", JStr "192.168.1.103"); ("type", JStr "tablet"); ("rssi", JInt (-61))];
      JDict [("name", JStr "Smart TV"); ("mac", JStr "D7:E5:F4:A6:B3:C9"); ("ip", JStr "192.168.1.104"); ("type", JStr "tv"); ("rssi", JInt (-38))];
      JDict [("name", JStr "Unknown Device"); ("mac", JStr "E8:F6:A5:B7:C4:D2"); ("ip", JStr "192.168.1.105"); ("type", JStr "other"); ("rssi", JInt (-72))]])].

(** GET /api/packages (line 144) *)
Definition packages : json :=
  JList [
    JDict [("id", JInt 1); ("name", JStr "Home Basic"); ("description", JStr "Basic internet"); ("downloadSpeed", JInt 10); ("uploadSpeed", JInt 3); ("price", JInt 150000); ("isActive", JBool true)];
    JDict [("id", JInt 2); ("name", JStr "Home Standard"); ("description", JStr "Standard internet"); ("downloadSpeed", JInt 20); ("uploadSpeed", JInt 5); ("price", JInt 250000); ("isActive", JBool true)];
    JDict [("id", JInt 3); ("name", JStr "Home Premium"); ("description", JStr "Premium internet"); ("downloadSpeed", JInt 50); ("uploadSpeed", JInt 10); ("price", JInt 400000); ("isActive", JBool true)];
    JDict [("id", JInt 4); ("name", JStr "Business"); ("description", JStr "Business internet"); ("downloadSpeed", JInt 100); ("uploadSpeed", JInt 20); ("price", JInt 750000); ("isActive", JBool true)]].

(** GET /api/customers (line 153) *)
Definition customers : json :=
  JDict [
    ("customers", JList [
      JDict [("id", JInt 1); ("customerCode", JStr "CUST-0001"); ("name", JStr "John Doe"); ("email", JStr "john@email.com"); ("phone", JStr "08123456789"); ("status", JStr "active"); ("packageId", JInt 2); ("balance", JInt 0)];
      JDict [("id", JInt 2); ("customerCode", JStr "CUST-0002"); ("name", JStr "Ahmad Susanto"); ("email", JStr "ahmad@email.com"); ("phone", JStr "08234567890"); ("status", JStr "active"); ("packageId", JInt 3); ("balance", JInt (-250000))];
      JDict [("id", JInt 3); ("customerCode", JStr "CUST-0003"); ("name", JStr "Budi Wijaya"); ("email", JStr "budi@email.com"); ("phone", JStr "08345678901"); ("status", JStr "suspended"); ("packageId", JInt 1); ("balance", JInt (-500000))]]);
    ("total", JInt 3)].

(** GET /api/invoices (line 164) *)
Definition invoices : json :=
  JDict [
    ("invoices", JList [
      JDict [("id", JInt 1); ("invoiceNo", JStr "INV-202601-0001"); ("customerId", JInt 1); ("total", JInt 250000); ("status", JStr "paid"); ("paidAmount", JInt 250000); ("dueDate", JStr "2026-01-15")];
      JDict [("id", JInt 2); ("invoiceNo", JStr "INV-202601-0002"); ("customerId", JInt 2); ("total", JInt 400000); ("status", JStr "pending"); ("paidAmount", JInt 0); ("dueDate", JStr "2026-01-15")];
      JDict [("id", JInt 3); ("invoiceNo", JStr "INV-202601-0003"); ("customerId", JInt 3); ("total", JInt 150000); ("status", JStr "overdue"); ("paidAmount", JInt 0); ("dueDate", JStr "2026-01-01")]]);
    ("total", JInt 3)].

(** GET /api/payments (line 175) *)
Definition payments : json :=
  JDict [
    ("payments", JList [
      JDict [("id", JInt 1); ("paymentNo", JStr "PAY-202601-0001"); ("customerId", JInt 1); ("amount", JInt 250000); ("paymentMethod", JStr "transfer"); ("status", JStr "completed"); ("paymentDate", JStr "2026-01-03")];
      JDict [("id", JInt 2); ("paymentNo", JStr "PAY-202512-0015"); ("customerId", JInt 2); ("amount", JInt 400000); ("paymentMethod", JStr "cash"); ("status", JStr "completed"); ("paymentDate", JStr "2026-01-02")]]);
    ("total", JInt 2)].

(** GET /api/billing/stats (line 185) *)
Definition billing_stats : json :=
  JDict [("totalCustomers", JInt 142); ("activeCustomers", JInt 134); ("suspendedCustomers", JInt 8); ("monthlyRevenue", JInt 35500000); ("pendingInvoices", JInt 23); ("overdueAmount", JInt 2500000); ("todayPayments", JInt 1750000)].

(** POST /api/auth/login, accepted (line 207) *)
Definition login_ok : json :=
  JDict [
    ("success", JBool true);
    ("token", JStr "mock-jwt-token-12345");
    ("user", JDict [("username", JStr "admin"); ("role", JStr "admin")])].

(** POST /api/auth/login, rejected (line 213) *)
Definition invalid_credentials : json :=
  JDict [("success", JBool false); ("error", JStr "Invalid credentials")].

(** POST to a login route, exception caught (line 215) *)
Definition invalid_request : json :=
  JDict [("success", JBool false); ("error", JStr "Invalid request")].

(** POST /api/portal/auth/login, rejected (line 245) *)
Definition invalid_portal_credentials : json :=
  JDict [("success", JBool false); ("error", JStr "Invalid username or password")].

(** POST to a logout route (line 250) *)
Definition logged_out : json :=
  JDict [("success", JBool true)].

(** POST to a reboot or refresh route (line 253) *)
Definition command_queued : json :=
  JDict [("success", JBool true); ("message", JStr "Command queued")].

(** POST /api/devices (line 256) *)
Definition device_created : json :=
  JDict [("success", JBool true); ("id", JInt 6)].

(** POST to any other path (line 259) *)
Definition acknowledged : json :=
  JDict [("success", JBool true)].

(** PUT (line 262) *)
Definition updated : json :=
  JDict [("success", JBool true); ("message", JStr "Updated")].


(** GET /api/devices/<id> (line 130) *)
Definition device_detail (id : Z) : json :=
  JDict [
    ("id", JInt id);
    ("serialNumber", JStr "HWTC12345678");
    ("manufacturer", JStr "Huawei");
    ("modelName", JStr "HG8245H");
    ("hardwareVersion", JStr "V300R019");
    ("softwareVersion", JStr "V3R019C10S120");
    ("status", JStr "online");
    ("ipAddress", JStr "192.168.1.1");
    ("lastContact", JStr "2026-01-04T22:50:00Z")].

End Fixture.

(** ** The handler *)

Module GOACSHandler.

Import Fixture.

(** [send_json(self, data, status=200)] *)
Definition send_json (data : json) (status : Z) : outcome :=
  let content := Json.dumps data in
  Sent {| status := status;
          headers := [("Content-Type", "application/json");
                      ("Content-Length", Py.str (Z.of_nat (String.length content)));
                      ("Access-Control-Allow-Origin", "*")];
          body := content |}.

(** One entry of the dictionary [valid_users] of the portal login *)
Record user : Type := {
  id : Z;
  code : string;
  name : string;
  password : string
}.

Definition valid_users : list (string * user) :=
  [("johndoe", {| id := 1; code := "CUST-0001"; name := "John Doe"; password := "password123" |});
   ("CUST-0001", {| id := 1; code := "CUST-0001"; name := "John Doe"; password := "password123" |});
   ("ahmad", {| id := 2; code := "CUST-0002"; name := "Ahmad Susanto"; password := "password123" |});
   ("CUST-0002", {| id := 2; code := "CUST-0002"; name := "Ahmad Susanto"; password := "password123" |})].

(** [data.get(key, default)]: only a dict has the method *)
Definition get (data : json) (key : string) (default : json) : raises json :=
  match data with
  | JDict d =>
      match Json.lookup key d with
      | Some v => ret v
      | None => ret default
      end
  | _ => raise AttributeError
  end.

Fixpoint find_user (k : string) (users : list (string * user)) : option user :=
  match users with
  | [] => None
  | (k', u) :: r => if String.eqb k' k then Some u else find_user k r
  end.

(** The entry of [valid_users] for [username], as both [username in
    valid_users] and [valid_users[username]] find it.  A list or a dict
    cannot be hashed; a key that is not a string equals none of the keys. *)
Definition user_of (username : json) : raises (option user) :=
  match username with
  | JList _ | JDict _ => raise TypeError
  | JStr s => ret (find_user s valid_users)
  | _ => ret None
  end.

(** The answer of the portal login to an accepted customer (line 233) *)
Definition portal_login_ok (username : string) (u : user) : json :=
  JDict [
    ("success", JBool true);
    ("token", JStr ("customer-" ++ Py.str (id u) ++ "-mock-token"));
    ("customer", JDict [
       ("id", JInt (id u));
       ("customerCode", JStr (code u));
       ("name", JStr (name u));
       ("email", JStr (Py.lower username ++ "@email.com"));
       ("status", JStr "active")])].

Section Handler.

Variable rt : runtime.

(** [serve_file(self, filepath)] *)
Definition serve_file (filepath : string) : outcome :=
  match read_file rt filepath with
  | Content content =>
      let content_type :=
        if Py.endswith filepath ".html" then "text/html; charset=utf-8"
        else if Py.endswith filepath ".css" then "text/css"
        else if Py.endswith filepath ".js" then "application/javascript"
        else "application/octet-stream" in
      Sent {| status := 200;
              headers := [("Content-Type", content_type);
                          ("Content-Length", Py.str (Z.of_nat (String.length content)))];
              body := content |}
  | FileNotFoundError => SendError 404 (Some ("File not found: " ++ filepath))
  | OtherOSError => Uncaught OSError
  end.

(** [do_GET(self)] *)
Definition do_GET (req : request) : outcome :=
  match urlparse_path rt (self_path req) with
  | None => Uncaught ValueError
  | Some path =>
    if (path =? "/") || (path =? "/index.html") then
      serve_file "web/templates/index.html"
    else if path =? "/dashboard" then serve_file "web/templates/dashboard.html"
    else if path =? "/devices" then serve_file "web/templates/devices.html"
    else if Py.startswith path "/device/" then
      serve_file "web/templates/device-detail.html"
    else if path =? "/provisions" then serve_file "web/templates/provisions.html"
    else if path =? "/map" then serve_file "web/templates/map.html"
    else if path =? "/customers" then serve_file "web/templates/customers.html"
    else if path =? "/billing" then serve_file "web/templates/billing.html"
    else if (path =? "/portal") || (path =? "/portal/") then
      serve_file "web/templates/portal.html"
    else if path =? "/portal/login" then serve_file "web/templates/portal-login.html"
    else if path =? "/packages" then serve_file "web/templates/packages.html"
    else if path =? "/tasks" then serve_file "web/templates/tasks.html"
    else if path =? "/logs" then serve_file "web/templates/logs.html"
    else if path =? "/settings" then serve_file "web/templates/settings.html"
    else if Py.startswith path "/static/" then
      let file_path := "web" ++ path in
      if os_path_exists rt file_path then serve_file file_path
      else SendError 404 None
    else if path =? "/api/dashboard/stats" then send_json dashboard_stats 200
    else if path =? "/api/devices" then send_json devices 200
    else if Py.startswith path "/api/devices/" && Py.endswith path "/wifi" then
      send_json wifi 200
    else if Py.startswith path "/api/devices/" && Py.endswith path "/wan" then
      send_json wan 200
    else if Py.startswith path "/api/devices/" && Py.endswith path "/parameters" then
      send_json parameters 200
    else if Py.startswith path "/api/devices/" && Py.endswith path "/pon" then
      send_json pon 200
    else if Py.startswith path "/api/devices/" && Py.endswith path "/clients" then
      send_json clients 200
    else if Py.startswith path "/api/devices/" then
      let device_id := Py.last_item (Py.split "/" path) in
      match (if Py.isdigit device_id
             then Py.int_within (int_max_str_digits rt) device_id
             else Some 1) with
      | Some n => send_json (device_detail n) 200
      | None => Uncaught ValueError
      end
    else if path =? "/api/packages" then send_json packages 200
    else if path =? "/api/customers" then send_json customers 200
    else if path =? "/api/invoices" then send_json invoices 200
    else if path =? "/api/payments" then send_json payments 200
    else if path =? "/api/billing/stats" then send_json billing_stats 200
    else Super_do_GET
  end.

(** The two statements that read the request body at the head of [do_POST]:
    [int(self.headers.get('Content-Length', 0))], then [self.rfile.read],
    which takes a buffer of the announced length before it reads. *)
Definition read_body (req : request) : raises string :=
  content_length <-
    match content_length req with
    | None => ret 0
    | Some v =>
        match Py.int_within (int_max_str_digits rt) v with
        | Some n => ret n
        | None => raise ValueError
        end
    end ;;
  if content_length >? 0 then
    match read_failure rt content_length with
    | Some e => raise e
    | None => ret (substring 0 (Z.to_nat content_length) (rfile req))
    end
  else ret EmptyString.

(** [json.loads(body)] inside a [try] *)
Definition loads (body : string) : raises json :=
  match json_loads rt body with
  | Some data => ret data
  | None => raise ValueError
  end.

(** The [try] block of the branch [/api/auth/login]: the data and the status
    it passes to [send_json], or the exception it raises. *)
Definition auth_login (body : string) : raises (json * Z) :=
  data <- loads body ;;
  username <- get data "username" JNull ;;
  if Json.eq_str username "admin" then
    password <- get data "password" JNull ;;
    if Json.eq_str password "admin123" then ret (login_ok, 200)
    else ret (invalid_credentials, 401)
  else ret (invalid_credentials, 401).

(** The [try] block of the branch [/api/portal/auth/login] *)
Definition portal_auth_login (body : string) : raises (json * Z) :=
  data <- loads body ;;
  username <- get data "username" (JStr "") ;;
  password <- get data "password" (JStr "") ;;
  found <- user_of username ;;
  match found, username with
  | Some u, JStr s =>
      if Json.eq_str password (GOACSHandler.password u)
      then ret (portal_login_ok s u, 200)
      else ret (invalid_portal_credentials, 401)
  | _, _ => ret (invalid_portal_credentials, 401)
  end.

(** A [try] block whose bare [except] answers 400 *)
Definition or_invalid_request (block : raises (json * Z)) : outcome :=
  match block with
  | inr (data, status) => send_json data status
  | inl _ => send_json invalid_request 400
  end.

(** [do_POST(self)] *)
Definition do_POST (req : request) : outcome :=
  match urlparse_path rt (self_path req) with
  | None => Uncaught ValueError
  | Some path =>
    match read_body req with
    | inl e => Uncaught e
    | inr body =>
      if path =? "/api/auth/login" then or_invalid_request (auth_login body)
      else if path =? "/api/portal/auth/login" then
        or_invalid_request (portal_auth_login body)
      else if (path =? "/api/auth/logout") || (path =? "/api/portal/auth/logout") then
        send_json logged_out 200
      else if Py.contains "/reboot" path || Py.contains "/refresh" path then
        send_json command_queued 200
      else if path =? "/api/devices" then send_json device_created 200
      else send_json acknowledged 200
    end
  end.

(** [do_PUT(self)] *)
Definition do_PUT (req : request) : outcome :=
  send_json updated 200.

(** The dispatch of [http.server] on the request method *)
Definition handle (m : method) (req : request) : outcome :=
  match m with
  | GET => do_GET req
  | POST => do_POST req
  | PUT => do_PUT req
  end.

End Handler.

End GOACSHandler.

(** ** A concrete environment

    An instance of [runtime] on which the handler can be run: [urlparse]
    on an origin-form request target (the path ends at the first [?] or
    [#]), [json.loads] on the documents written by [json.dumps] for a few
    values, a working directory that holds one template, the default limit
    of 4300 digits and a machine that has no buffer of 2 GiB to give. *)

Module Sample.

Import GOACSHandler.

Fixpoint path_of_target (url : string) : string :=
  match url with
  | EmptyString => EmptyString
  | String c t =>
      if Ascii.eqb c "?" || Ascii.eqb c "#" then EmptyString
      else String c (path_of_target t)
  end.

Definition admin_credentials : json :=
  JDict [("username", JStr "admin"); ("password", JStr "admin123")].

Definition wrong_credentials : json :=
  JDict [("username", JStr "admin"); ("password", JStr "letmein")].

Definition johndoe_credentials : json :=
  JDict [("username", JStr "johndoe"); ("password", JStr "password123")].

Definition list_as_username : json :=
  JDict [("username", JList []); ("password", JStr "password123")].

Definition documents : list json :=
  [admin_credentials; wrong_credentials; johndoe_credentials; list_as_username; JList []].

Definition loads_document (body : string) : option json :=
  List.find (fun v => Json.dumps v =? body) documents.

Definition dashboard_html : string := "<!DOCTYPE html><html><body>Dashboard</body></html>".

Definition rt : runtime :=
  {| urlparse_path := fun url => Some (path_of_target url);
     json_loads := loads_document;
     os_path_exists := fun f => f =? "web/templates/dashboard.html";
     read_file := fun f =>
       if f =? "web/templates/dashboard.html" then Content dashboard_html
       else FileNotFoundError;
     int_max_str_digits := 4300;
     read_failure := fun n =>
       if (n <? 2 ^ 31)%Z then None
       else if (n <? 2 ^ 63 - 32)%Z then Some MemoryError
       else Some OverflowError |}.

(** A request without a body *)
Definition bare (target : string) : request :=
  {| self_path := target; content_length := None; rfile := EmptyString |}.

(** A request that carries [content] with its length announced *)
Definition carrying (target content : string) : request :=
  {| self_path := target;
     content_length := Some (Py.str (Z.of_nat (String.length content)));
     rfile := content |}.

(** The superscript two, a digit for [str.isdigit] *)
Definition superscript_two : string := String (ascii_of_nat 178) EmptyString.

End Sample.

(** * Vocabulary of the properties *)

Import GOACSHandler.

Definition cors_header : string * string := ("Access-Control-Allow-Origin", "*").
Definition json_content_type : string * string := ("Content-Type", "application/json").

(** A response that announces JSON carries the CORS header. *)
Definition cors_if_json (o : outcome) : Prop :=
  match o with
  | Sent r => In json_content_type (headers r) -> In cors_header (headers r)
  | _ => True
  end.

(** A word between double quotes, as it stands in a JSON text *)
Definition in_quotes (s : string) : string :=
  String Py.dquote (s ++ String Py.dquote EmptyString).

(** The claim of C2 on the body of a response: a JSON array of five items. *)
Definition array_of_five (content : string) : Prop :=
  exists items : list json, List.length items = 5%nat /\ content = Json.dumps (JList items).

(** The value of a string of decimal digits, read from the left with [acc]
    the value of the digits before it. *)
Fixpoint decimal_from (acc : Z) (s : string) : Z :=
  match s with
  | EmptyString => acc
  | String c t => decimal_from (10 * acc + Py.digit_value c) t
  end.

Definition decimal (s : string) : Z := decimal_from 0 s.

(** A literal of [len] digits is within the limit [max_str_digits] of the
    interpreter (0 stands for no limit). *)
Definition within_limit (max_str_digits len : nat) : Prop :=
  max_str_digits = 0%nat \/ (len <= max_str_digits)%nat.

(** The two login routes *)
Definition login_path (path : string) : Prop :=
  path = "/api/auth/login" \/ path = "/api/portal/auth/login".

(** The value of [data.get(key, default)] on a dict *)
Definition field (key : string) (default : json) (d : list (string * json)) : json :=
  match Json.lookup key d with
  | Some v => v
  | None => default
  end.

(** The customer number that C10 gives to a user name *)
Definition customer_id (username : string) : option Z :=
  if (username =? "johndoe") || (username =? "CUST-0001") then Some 1
  else if (username =? "ahmad") || (username =? "CUST-0002") then Some 2
  else None.

(** A value that can be looked up in a dict: not a list, not a dict *)
Definition hashable (v : json) : Prop :=
  match v with
  | JList _ | JDict _ => False
  | _ => True
  end.

(** The credentials of the object [d] are those of the customer [n] under
    the user name [s]. *)
Definition portal_accepts (d : list (string * json)) (s : string) (n : Z) : Prop :=
  field "username" (JStr "") d = JStr s /\ customer_id s = Some n /\
  field "password" (JStr "") d = JStr "password123".

(** The pages of the web UI: the paths compared with [==] in [do_GET] and
    the template each one serves. *)
Definition pages : list (string * string) :=
  [("/", "web/templates/index.html");
   ("/index.html", "web/templates/index.html");
   ("/dashboard", "web/templates/dashboard.html");
   ("/devices", "web/templates/devices.html");
   ("/provisions", "web/templates/provisions.html");
   ("/map", "web/templates/map.html");
   ("/customers", "web/templates/customers.html");
   ("/billing", "web/templates/billing.html");
   ("/portal", "web/templates/portal.html");
   ("/portal/", "web/templates/portal.html");
   ("/portal/login", "web/templates/portal-login.html");
   ("/packages", "web/templates/packages.html");
   ("/tasks", "web/templates/tasks.html");
   ("/logs", "web/templates/logs.html");
   ("/settings", "web/templates/settings.html")].

(** The paths of the mock API compared with [==] in [do_GET] *)
Definition api_paths : list string :=
  ["/api/dashboard/stats"; "/api/devices"; "/api/packages"; "/api/customers";
   "/api/invoices"; "/api/payments"; "/api/billing/stats"].

(** A path that [do_GET] has a route for *)
Definition routed (path : string) : bool :=
  existsb (String.eqb path) (map fst pages ++ api_paths)
  || Py.startswith path "/device/"
  || Py.startswith path "/static/"
  || Py.startswith path "/api/devices/".

(** The file a route of [do_GET] opens for a path: the template of a page
    or of a device page, or the file below [web/static/]. *)
Definition serves (path f : string) : Prop :=
  In (path, f) pages \/
  (Py.startswith path "/device/" = true /\ f = "web/templates/device-detail.html") \/
  (Py.startswith path "/static/" = true /\ f = "web" ++ path).

(** The statuses the amended C5 allows for a request with method [m] whose
    path is parsed as [parsed]: what the code of the handler writes, and
    the hand-over of a GET that has no route. *)
Definition allowed_status (m : method) (parsed : option string) (o : outcome) : Prop :=
  match o with
  | Sent r =>
      status r = 200 \/
      (m = POST /\ (exists path, parsed = Some path /\ login_path path) /\
       (status r = 400 \/ status r = 401))
  | SendError code _ => m = GET /\ code = 404
  | Super_do_GET => m = GET /\ exists path, parsed = Some path /\ routed path = false
  | Uncaught _ => True
  end.

(** The handler answered the request itself: it wrote a response or called
    [send_error]; it neither raised nor handed the request over. *)
Definition written_here (o : outcome) : Prop :=
  match o with
  | Sent _ | SendError _ _ => True
  | Super_do_GET | Uncaught _ => False
  end.

(** The value of the first header named [key] *)
Fixpoint header (key : string) (hs : list (string * string)) : option string :=
  match hs with
  | [] => None
  | (k, v) :: r => if k =? key then Some v else header key r
  end.

(** The announced length of a written response is the length of its body. *)
Definition content_length_matches (o : outcome) : Prop :=
  match o with
  | Sent r =>
      header "Content-Length" (headers r)
      = Some (Py.str (Z.of_nat (String.length (body r))))
  | _ => True
  end.

(** The last segment of a path makes [int] raise behind the guard
    [isdigit]: it passes [isdigit] and either has a character that is not a
    decimal digit or has more digits than the interpreter converts. *)
Definition unconvertible (max_str_digits : nat) (segment : string) : Prop :=
  Py.isdigit segment = true /\
  (Py.all_chars Py.is_ascii_digit segment = false \/
   (0 < max_str_digits < String.length segment)%nat).

(** The ways the code of [do_GET] can be aborted by an exception before it
    answers or hands the request over: [urlparse] raises, the file of the
    route is there but cannot be read, or the last segment of a device path
    passes [isdigit] and [int] rejects it. *)
Definition get_abort_explained (rt : runtime) (req : request) (o : outcome) : Prop :=
  match o with
  | Uncaught e =>
      (e = ValueError /\ urlparse_path rt (self_path req) = None) \/
      (e = OSError /\
       exists path f,
         urlparse_path rt (self_path req) = Some path /\
         serves path f /\ read_file rt f = OtherOSError) \/
      (e = ValueError /\
       exists path,
         urlparse_path rt (self_path req) = Some path /\
         Py.startswith path "/api/devices/" = true /\
         unconvertible (int_max_str_digits rt) (Py.last_item (Py.split "/" path)))
  | _ => True
  end.

(** The ways [do_POST] can be aborted: [urlparse] raises, [int] rejects the
    [Content-Length] header, or [rfile.read] cannot have a buffer of the
    announced length. *)
Definition post_abort_explained (rt : runtime) (req : request) (o : outcome) : Prop :=
  match o with
  | Uncaught e =>
      (e = ValueError /\ urlparse_path rt (self_path req) = None) \/
      (e = ValueError /\
       exists v, content_length req = Some v /\
                 Py.int_within (int_max_str_digits rt) v = None) \/
      (exists v n, content_length req = Some v /\
                   Py.int_within (int_max_str_digits rt) v = Some n /\
                   0 < n /\ read_failure rt n = Some e)
  | _ => True
  end.

(** The last character of a string, if it has one *)
Fixpoint last_char (s : string) : option ascii :=
  match s with
  | EmptyString => None
  | String c t =>
      match last_char t with
      | None => Some c
      | found => found
      end
  end.

(** What [serve_file] answers for a file that is served as HTML *)
Definition html_file_outcome (rt : runtime) (f : string) : outcome :=
  match read_file rt f with
  | Content c =>
      Sent {| status := 200;
              headers := [("Content-Type", "text/html; charset=utf-8");
                          ("Content-Length", Py.str (Z.of_nat (String.length c)))];
              body := c |}
  | FileNotFoundError => SendError 404 (Some ("File not found: " ++ f))
  | OtherOSError => Uncaught OSError
  end.

(** [do_GET] hands over to the handler of the library exactly on the paths
    it has no route for. *)
Definition delegated_iff_unrouted (path : string) (o : outcome) : Prop :=
  o = Super_do_GET <-> routed path = false.

(** * Properties *)

(** ** Strings *)

Section StringFacts.

Lemma length_app (s t : string) :
  String.length (s ++ t) = (String.length s + String.length t)%nat.
Proof. induction s as [|c s IH]; simpl; [reflexivity | now rewrite IH]. Qed.

Lemma app_assoc (s t u : string) : (s ++ t) ++ u = s ++ (t ++ u).
Proof. induction s as [|c s IH]; simpl; [reflexivity | now rewrite IH]. Qed.

Lemma substring_all (s : string) : substring 0 (String.length s) s = s.
Proof. induction s as [|c s IH]; simpl; [reflexivity | now rewrite IH]. Qed.

Lemma substring_skip (s t : string) (m : nat) :
  substring (String.length s) m (s ++ t) = substring 0 m t.
Proof. induction s as [|c s IH]; simpl; [reflexivity | exact IH]. Qed.

Lemma startswith_app (p s : string) : Py.startswith (p ++ s) p = true.
Proof.
  unfold Py.startswith.
  induction p as [|c p IH]; simpl.
  - now destruct s.
  - destruct (ascii_dec c c) as [_|ne]; [exact IH | now elim ne].
Qed.

Lemma startswith_inv (s p : string) :
  Py.startswith s p = true -> exists r, s = p ++ r.
Proof.
  unfold Py.startswith. revert s.
  induction p as [|c p IH]; intros s H.
  - now exists s.
  - destruct s as [|d s]; simpl in H; [discriminate|].
    destruct (ascii_dec c d) as [->|]; [|discriminate].
    destruct (IH s H) as [r ->]. now exists r.
Qed.

Lemma endswith_app (s p : string) : Py.endswith (s ++ p) p = true.
Proof.
  unfold Py.endswith. rewrite length_app.
  replace (String.length s + String.length p - String.length p)%nat
    with (String.length s) by lia.
  rewrite substring_skip, substring_all, String.eqb_refl.
  rewrite andb_true_r. apply Nat.leb_le. lia.
Qed.

End StringFacts.

(** ** [send_json] and [serve_file] *)

Lemma send_json_cors (data : json) (st : Z) : cors_if_json (send_json data st).
Proof. intros _. simpl. unfold cors_header. tauto. Qed.

Lemma serve_file_cors (rt : runtime) (f : string) : cors_if_json (serve_file rt f).
Proof.
  unfold serve_file. destruct (read_file rt f); simpl; trivial.
  unfold json_content_type.
  repeat match goal with
         | |- context [if ?c then _ else _] => destruct c
         end;
  intros [H | [H | []]]; discriminate H.
Qed.

(** Splits the [if] chain of a handler, outermost test first. *)
Ltac split_route :=
  repeat match goal with
         | |- ?P (if ?c then _ else _) => destruct c
         end.

Lemma do_GET_cors (rt : runtime) (req : request) : cors_if_json (do_GET rt req).
Proof.
  unfold do_GET.
  destruct (urlparse_path rt (self_path req)) as [path|]; [|exact I].
  split_route;
    try apply serve_file_cors; try apply send_json_cors; try exact I.
  destruct (if Py.isdigit _ then _ else _); [apply send_json_cors | exact I].
Qed.

Lemma or_invalid_request_cors (block : raises (json * Z)) :
  cors_if_json (or_invalid_request block).
Proof. destruct block as [e|[d s]]; apply send_json_cors. Qed.

Lemma do_POST_cors (rt : runtime) (req : request) : cors_if_json (do_POST rt req).
Proof.
  unfold do_POST.
  destruct (urlparse_path rt (self_path req)) as [path|]; [|exact I].
  destruct (read_body rt req) as [e|content]; [exact I|].
  split_route; try apply or_invalid_request_cors; apply send_json_cors.
Qed.

(** C7.  Every response written by [send_json] has the headers
    [Content-Type: application/json] and [Access-Control-Allow-Origin: *],
    whatever the data and the status; and whatever the method, the request
    and the environment, a response of the handler that announces JSON
    carries the CORS header. *)
Theorem json_response_has_cors_header :
  (forall (data : json) (st : Z),
      exists r, send_json data st = Sent r /\ status r = st /\
                In json_content_type (headers r) /\ In cors_header (headers r)) /\
  (forall (rt : runtime) (m : method) (req : request) (r : response),
      handle rt m req = Sent r ->
      In json_content_type (headers r) -> In cors_header (headers r)).
Proof.
  split.
  - intros data st. eexists. split; [reflexivity|].
    simpl. unfold json_content_type, cors_header. tauto.
  - intros rt m req r H.
    assert (K : cors_if_json (handle rt m req)).
    { destruct m.
      - apply do_GET_cors.
      - apply do_POST_cors.
      - apply (send_json_cors Fixture.updated 200). }
    rewrite H in K. exact K.
Qed.

Lemma json_response_has_cors_header_witness :
  handle Sample.rt POST (Sample.carrying "/api/auth/login" "not json")
    = send_json Fixture.invalid_request 400 /\
  In cors_header
     [json_content_type; ("Content-Length", "46"); cors_header].
Proof.
  split; [reflexivity|].
  apply (proj2 json_response_has_cors_header Sample.rt POST
           (Sample.carrying "/api/auth/login" "not json")
           {| status := 400;
              headers := [json_content_type; ("Content-Length", "46"); cors_header];
              body := Json.dumps Fixture.invalid_request |}).
  - reflexivity.
  - simpl. tauto.
Defined.

(** What [send_json] writes: the status it is given and the data as
    [json.dumps] prints it. *)
Lemma sent_json (o : outcome) (data : json) (st : Z) :
  o = send_json data st ->
  exists r, o = Sent r /\ status r = st /\ body r = Json.dumps data.
Proof. intros ->. eexists. repeat split. Qed.

(** C8.  A PUT request is answered with a response of status 200 whose
    body is the JSON text of the fixed data, byte for byte
    [{"success": true, "message": "Updated"}], whatever its path and body and
    whatever the environment. *)
Theorem do_PUT_fixed_success (rt : runtime) (req : request) :
  exists r,
    handle rt PUT req = Sent r /\
    status r = 200 /\
    body r = Json.dumps (JDict [("success", JBool true); ("message", JStr "Updated")]) /\
    body r = "{" ++ in_quotes "success" ++ ": true, "
                 ++ in_quotes "message" ++ ": " ++ in_quotes "Updated" ++ "}".
Proof.
  destruct (sent_json (handle rt PUT req) Fixture.updated 200 eq_refl)
    as (r & E & Hs & Hb).
  exists r. repeat split; trivial.
Qed.

(** ** Routes of [do_GET] *)

(** Decides the tests of a route on a path whose first characters are
    known: the comparisons with a literal and the prefix tests. *)
Ltac decide_tests :=
  rewrite ?startswith_app;
  repeat match goal with
         | |- context [String.eqb ?a ?b] =>
             let v := eval vm_compute in (String.eqb a b) in
             match v with
             | true => change (String.eqb a b) with true
             | false => change (String.eqb a b) with false
             end
         | |- context [Py.startswith ?a ?b] =>
             let v := eval vm_compute in (Py.startswith a b) in
             match v with
             | true => change (Py.startswith a b) with true
             | false => change (Py.startswith a b) with false
             end
         end;
  cbv beta iota delta [orb andb].

Lemma endswith_app3 (a b p : string) : Py.endswith (a ++ b ++ p) p = true.
Proof. rewrite <- app_assoc. apply endswith_app. Qed.

(** C4.  Whatever the string [id], a GET request whose path is
    [/api/devices/<id>/wifi] is answered with a response of status 200
    whose body is the JSON text of the fixed WiFi credentials. *)
Theorem wifi_fixed_for_every_id (rt : runtime) (req : request) (id : string) :
  urlparse_path rt (self_path req) = Some ("/api/devices/" ++ id ++ "/wifi") ->
  exists r,
    handle rt GET req = Sent r /\
    status r = 200 /\
    body r = Json.dumps (JDict [("ssid", JStr "MyWiFi_Network");
                                ("password", JStr "password123");
                                ("ssid5g", JStr "MyWiFi_5G");
                                ("password5g", JStr "password123");
                                ("channel", JInt 6);
                                ("enabled", JBool true)]).
Proof.
  intros H. apply sent_json. unfold handle, do_GET. rewrite H.
  decide_tests. rewrite endswith_app3. reflexivity.
Qed.

Lemma wifi_fixed_for_every_id_witness :
  exists r,
    handle Sample.rt GET (Sample.bare "/api/devices/42/wifi?band=5g") = Sent r /\
    status r = 200 /\
    body r = Json.dumps Fixture.wifi.
Proof.
  apply (wifi_fixed_for_every_id Sample.rt
           (Sample.bare "/api/devices/42/wifi?band=5g") "42").
  reflexivity.
Defined.

(** C2, as stated, fails: the body of the answer to GET [/api/devices] is a
    JSON object, not an array. *)
Lemma devices_body_is_not_an_array :
  exists r, handle Sample.rt GET (Sample.bare "/api/devices") = Sent r /\
            status r = 200 /\ ~ array_of_five (body r).
Proof.
  eexists. split; [reflexivity|]. split; [reflexivity|].
  intros (items & _ & H). vm_compute in H. discriminate H.
Qed.

(** C2, amended.  A GET request whose path is exactly [/api/devices] is
    answered with a response of status 200 whose body is the JSON text of
    an object with two fields: [devices], an array of exactly five literal
    device records (ids 1 to 5), and [total], the number 5. *)
Theorem devices_object_with_five_records (rt : runtime) (req : request) :
  urlparse_path rt (self_path req) = Some "/api/devices" ->
  exists (records : list json) (r : response),
    handle rt GET req = Sent r /\
    status r = 200 /\
    body r = Json.dumps (JDict [("devices", JList records); ("total", JInt 5)]) /\
    List.length records = 5%nat /\
    List.map (fun v => match v with
                       | JDict d => Json.lookup "id" d
                       | _ => None
                       end) records
    = [Some (JInt 1); Some (JInt 2); Some (JInt 3); Some (JInt 4); Some (JInt 5)].
Proof.
  intros H. unfold handle, do_GET. rewrite H. decide_tests.
  do 2 eexists. repeat split.
Qed.

Lemma devices_object_with_five_records_witness :
  exists (records : list json) (r : response),
    handle Sample.rt GET (Sample.bare "/api/devices?page=1") = Sent r /\
    status r = 200 /\
    body r = Json.dumps (JDict [("devices", JList records); ("total", JInt 5)]) /\
    List.length records = 5%nat /\
    List.map (fun v => match v with
                       | JDict d => Json.lookup "id" d
                       | _ => None
                       end) records
    = [Some (JInt 1); Some (JInt 2); Some (JInt 3); Some (JInt 4); Some (JInt 5)].
Proof.
  apply (devices_object_with_five_records Sample.rt
           (Sample.bare "/api/devices?page=1")).
  reflexivity.
Defined.

(** ** The device detail route *)

Lemma ascii_digit_not_space (c : ascii) :
  Py.is_ascii_digit c = true -> Py.is_int_space c = false.
Proof.
  destruct c as [[] [] [] [] [] [] [] []]; intros H;
    solve [reflexivity | discriminate H].
Qed.

Lemma ascii_digit_is_digit (c : ascii) :
  Py.is_ascii_digit c = true -> Py.is_digit_char c = true.
Proof. intros H. unfold Py.is_digit_char. now rewrite H. Qed.

Lemma rstrip_digits (s : string) :
  Py.all_chars Py.is_ascii_digit s = true -> Py.rstrip s = s.
Proof.
  induction s as [|c t IH]; simpl; [reflexivity|].
  intros H. apply andb_true_iff in H. destruct H as [Hc Ht].
  rewrite (IH Ht). destruct t; [|reflexivity].
  now rewrite (ascii_digit_not_space c Hc).
Qed.

Lemma int_digits_decimal (s : string) (acc : Z) :
  Py.all_chars Py.is_ascii_digit s = true ->
  Py.int_digits acc true s = Some (decimal_from acc s).
Proof.
  revert acc. induction s as [|c t IH]; simpl; intros acc H; [reflexivity|].
  apply andb_true_iff in H. destruct H as [Hc Ht].
  rewrite Hc. now apply IH.
Qed.

(** [int] reads a non-empty string of decimal digits as its value. *)
Lemma int_of_decimal_digits (s : string) :
  s <> EmptyString -> Py.all_chars Py.is_ascii_digit s = true ->
  Py.int s = Some (decimal s).
Proof.
  destruct s as [|c t]; [now intros H|]. intros _ H.
  assert (Hc : Py.is_ascii_digit c = true).
  { simpl in H. now apply andb_true_iff in H. }
  assert (L : Py.lstrip (String c t) = String c t).
  { simpl. now rewrite (ascii_digit_not_space c Hc). }
  assert (E : Py.int_digits 0 false (String c t) = Some (decimal (String c t))).
  { simpl. rewrite Hc. apply int_digits_decimal.
    simpl in H. now apply andb_true_iff in H. }
  unfold Py.int. rewrite L, (rstrip_digits _ H).
  destruct c as [[] [] [] [] [] [] [] []]; try discriminate Hc; exact E.
Qed.

Lemma isdigit_of_decimal_digits (s : string) :
  s <> EmptyString -> Py.all_chars Py.is_ascii_digit s = true ->
  Py.isdigit s = true.
Proof.
  destruct s as [|c t]; [now intros H|]. intros _.
  unfold Py.isdigit. generalize (String c t). clear.
  induction s as [|c t IH]; simpl; [reflexivity|].
  intros H. apply andb_true_iff in H. destruct H as [Hc Ht].
  now rewrite (ascii_digit_is_digit c Hc), (IH Ht).
Qed.

Lemma digit_count_of_digits (s : string) :
  Py.all_chars Py.is_ascii_digit s = true -> Py.digit_count s = String.length s.
Proof.
  induction s as [|c t IH]; simpl; [reflexivity|].
  intros H. apply andb_true_iff in H. destruct H as [Hc Ht].
  now rewrite Hc, (IH Ht).
Qed.

Lemma digit_count_le_length (s : string) :
  (Py.digit_count s <= String.length s)%nat.
Proof.
  induction s as [|c t IH]; simpl; [lia|].
  destruct (Py.is_ascii_digit c); lia.
Qed.

(** The limit only adds failures. *)
Lemma int_within_none (limit : nat) (s : string) :
  Py.int s = None -> Py.int_within limit s = None.
Proof. intros H. unfold Py.int_within. rewrite H. now destruct (_ && _). Qed.

Lemma int_within_some (limit : nat) (s : string) (n : Z) :
  Py.int_within limit s = Some n -> Py.int s = Some n.
Proof. unfold Py.int_within. now destruct (_ && _). Qed.

(** Within the limit, the conversion is that of [int]. *)
Lemma int_within_limit (limit : nat) (s : string) :
  within_limit limit (String.length s) -> Py.int_within limit s = Py.int s.
Proof.
  intros W. unfold Py.int_within.
  pose proof (digit_count_le_length s) as L.
  destruct W as [-> | W]; [reflexivity|].
  replace (limit <? Py.digit_count s)%nat with false; [now rewrite andb_false_r|].
  symmetry. apply Nat.ltb_ge. lia.
Qed.

(** Beyond the limit, a string of decimal digits is rejected. *)
Lemma int_within_too_long (limit : nat) (s : string) :
  Py.all_chars Py.is_ascii_digit s = true ->
  (0 < limit < String.length s)%nat ->
  Py.int_within limit s = None.
Proof.
  intros H [L0 L1]. unfold Py.int_within. rewrite (digit_count_of_digits s H).
  replace (0 <? limit)%nat with true by (symmetry; apply Nat.ltb_lt; lia).
  replace (limit <? String.length s)%nat with true
    by (symmetry; apply Nat.ltb_lt; lia).
  reflexivity.
Qed.

Lemma digit_char_not_space (c : ascii) :
  Py.is_digit_char c = true -> Py.is_int_space c = false.
Proof.
  destruct c as [[] [] [] [] [] [] [] []]; intros H;
    solve [reflexivity | discriminate H].
Qed.

Lemma digit_char_cases (c : ascii) :
  Py.is_digit_char c = true -> Py.is_ascii_digit c = false ->
  Ascii.eqb c "_" = false.
Proof.
  destruct c as [[] [] [] [] [] [] [] []]; intros H K;
    solve [reflexivity | discriminate H | discriminate K].
Qed.

Lemma rstrip_digit_chars (s : string) :
  Py.all_chars Py.is_digit_char s = true -> Py.rstrip s = s.
Proof.
  induction s as [|c t IH]; simpl; [reflexivity|].
  intros H. apply andb_true_iff in H. destruct H as [Hc Ht].
  rewrite (IH Ht). destruct t; [|reflexivity].
  now rewrite (digit_char_not_space c Hc).
Qed.

Lemma int_digits_reject (s : string) :
  Py.all_chars Py.is_digit_char s = true ->
  Py.all_chars Py.is_ascii_digit s = false ->
  forall acc after_digit, Py.int_digits acc after_digit s = None.
Proof.
  induction s as [|c t IH]; simpl; [discriminate|].
  intros H K acc after_digit. apply andb_true_iff in H. destruct H as [Hc Ht].
  destruct (Py.is_ascii_digit c) eqn:Ec.
  - apply IH; assumption.
  - now rewrite (digit_char_cases c Hc Ec).
Qed.

(** [int] raises on a string that passes [isdigit] with a character that
    is not a decimal digit. *)
Lemma int_rejects_other_digits (s : string) :
  Py.isdigit s = true -> Py.all_chars Py.is_ascii_digit s = false ->
  Py.int s = None.
Proof.
  destruct s as [|c t]; [discriminate|]. unfold Py.isdigit. intros H K.
  assert (Hc : Py.is_digit_char c = true).
  { simpl in H. now apply andb_true_iff in H. }
  assert (L : Py.lstrip (String c t) = String c t).
  { simpl. now rewrite (digit_char_not_space c Hc). }
  pose proof (int_digits_reject _ H K 0 false) as E.
  unfold Py.int. rewrite L, (rstrip_digit_chars _ H).
  destruct c as [[] [] [] [] [] [] [] []]; try discriminate Hc; exact E.
Qed.

(** Behind the guard [isdigit], [int] raises exactly on the segments that
    are [unconvertible]. *)
Lemma guarded_int_raises_iff (limit : nat) (s : string) :
  Py.isdigit s = true ->
  (Py.int_within limit s = None <-> unconvertible limit s).
Proof.
  intros Hd. unfold unconvertible. split.
  - intros Hi. split; [exact Hd|].
    destruct (Py.all_chars Py.is_ascii_digit s) eqn:Ha; [right | now left].
    assert (Hne : s <> EmptyString) by (intros ->; discriminate Hd).
    destruct (Nat.eq_dec limit 0) as [E|E].
    { rewrite (int_within_limit limit s (or_introl E)),
        (int_of_decimal_digits s Hne Ha) in Hi. discriminate Hi. }
    destruct (Nat.le_gt_cases (String.length s) limit) as [L|L]; [|lia].
    rewrite (int_within_limit limit s (or_intror L)),
      (int_of_decimal_digits s Hne Ha) in Hi. discriminate Hi.
  - intros [_ [Ha | L]].
    + apply int_within_none, int_rejects_other_digits; assumption.
    + destruct (Py.all_chars Py.is_ascii_digit s) eqn:Ha.
      * now apply int_within_too_long.
      * apply int_within_none, int_rejects_other_digits; trivial.
Qed.

(** Where the specific routes below [/api/devices/] do not apply, the answer
    is the device detail with the id computed from the last segment. *)
Lemma do_GET_device_detail (rt : runtime) (req : request) (path : string) :
  urlparse_path rt (self_path req) = Some path ->
  Py.startswith path "/api/devices/" = true ->
  Py.endswith path "/wifi" = false ->
  Py.endswith path "/wan" = false ->
  Py.endswith path "/parameters" = false ->
  Py.endswith path "/pon" = false ->
  Py.endswith path "/clients" = false ->
  do_GET rt req
  = let device_id := Py.last_item (Py.split "/" path) in
    match (if Py.isdigit device_id
           then Py.int_within (int_max_str_digits rt) device_id
           else Some 1) with
    | Some n => send_json (Fixture.device_detail n) 200
    | None => Uncaught ValueError
    end.
Proof.
  intros H Hp H1 H2 H3 H4 H5.
  destruct (startswith_inv _ _ Hp) as [rest ->].
  unfold do_GET. rewrite H, H1, H2, H3, H4, H5.
  decide_tests. reflexivity.
Qed.

(** C9.  The claim fails on a last segment that [isdigit] accepts and [int]
    rejects: for the superscript two, [int] raises [ValueError] outside any
    [try] and the handler is aborted with no response, where the claim
    promises the device detail. *)
Theorem device_detail_raises_on_superscript_digit (rt : runtime) (req : request) :
  urlparse_path rt (self_path req)
    = Some ("/api/devices/" ++ Sample.superscript_two) ->
  Py.isdigit Sample.superscript_two = true /\
  Py.int Sample.superscript_two = None /\
  handle rt GET req = Uncaught ValueError.
Proof.
  intros H. split; [reflexivity|]. split; [reflexivity|].
  unfold handle.
  rewrite (do_GET_device_detail rt req _ H) by reflexivity. cbv zeta.
  change (Py.last_item (Py.split "/" ("/api/devices/" ++ Sample.superscript_two)))
    with Sample.superscript_two.
  change (Py.isdigit Sample.superscript_two) with true. cbv iota.
  now rewrite (int_within_none _ Sample.superscript_two eq_refl).
Qed.

Lemma device_detail_raises_on_superscript_digit_witness :
  handle Sample.rt GET (Sample.bare ("/api/devices/" ++ Sample.superscript_two))
  = Uncaught ValueError.
Proof.
  apply (device_detail_raises_on_superscript_digit Sample.rt
           (Sample.bare ("/api/devices/" ++ Sample.superscript_two))).
  reflexivity.
Defined.

(** On a last segment made of decimal digits, within the limit of the
    interpreter, the id is its value; on a last segment for which [isdigit]
    fails the id is 1. *)
Lemma device_detail_id (rt : runtime) (req : request) (path : string) :
  urlparse_path rt (self_path req) = Some path ->
  Py.startswith path "/api/devices/" = true ->
  Py.endswith path "/wifi" = false ->
  Py.endswith path "/wan" = false ->
  Py.endswith path "/parameters" = false ->
  Py.endswith path "/pon" = false ->
  Py.endswith path "/clients" = false ->
  let device_id := Py.last_item (Py.split "/" path) in
  (device_id <> EmptyString -> Py.all_chars Py.is_ascii_digit device_id = true ->
   within_limit (int_max_str_digits rt) (String.length device_id) ->
   handle rt GET req = send_json (Fixture.device_detail (decimal device_id)) 200) /\
  (Py.isdigit device_id = false ->
   handle rt GET req = send_json (Fixture.device_detail 1) 200).
Proof.
  intros H Hp H1 H2 H3 H4 H5 device_id.
  unfold handle. rewrite (do_GET_device_detail rt req path H Hp H1 H2 H3 H4 H5).
  fold device_id. cbv zeta. split.
  - intros Hne Hd W.
    now rewrite (isdigit_of_decimal_digits _ Hne Hd), (int_within_limit _ _ W),
      (int_of_decimal_digits _ Hne Hd).
  - intros Hd. now rewrite Hd.
Qed.

(** ** The login routes of [do_POST] *)

Lemma eq_str_true (v : json) (s : string) : Json.eq_str v s = true <-> v = JStr s.
Proof.
  destruct v; simpl; try (split; [discriminate | intros H; discriminate H]).
  rewrite String.eqb_eq. split; [now intros -> | now intros [= ->]].
Qed.

Lemma eq_str_false (v : json) (s : string) : Json.eq_str v s = false <-> v <> JStr s.
Proof.
  rewrite <- eq_str_true. destruct (Json.eq_str v s); split; intros H;
    try reflexivity; try discriminate H; try (intros K; discriminate K).
  now elim H.
Qed.

Lemma get_dict (d : list (string * json)) (key : string) (default : json) :
  get (JDict d) key default = ret (field key default d).
Proof. unfold get, field. now destruct (Json.lookup key d). Qed.

Lemma do_POST_auth_login (rt : runtime) (req : request) (content : string) :
  urlparse_path rt (self_path req) = Some "/api/auth/login" ->
  read_body rt req = inr content ->
  do_POST rt req = or_invalid_request (auth_login rt content).
Proof. intros H Hb. unfold do_POST. now rewrite H, Hb. Qed.

Lemma do_POST_portal_auth_login (rt : runtime) (req : request) (content : string) :
  urlparse_path rt (self_path req) = Some "/api/portal/auth/login" ->
  read_body rt req = inr content ->
  do_POST rt req = or_invalid_request (portal_auth_login rt content).
Proof. intros H Hb. unfold do_POST. now rewrite H, Hb. Qed.

(** C1.  On a POST to [/api/auth/login] whose body is a JSON object: when
    the field [username] is ["admin"] and the field [password] is
    ["admin123"] the response has status 200 and as body the JSON text of
    [success] true, the token ["mock-jwt-token-12345"] and a [user] object;
    for every other credentials the response has status 401 and as body the
    JSON text of [success] false with an error message. *)
Theorem admin_login_accepts_only_admin
    (rt : runtime) (req : request) (content : string) (d : list (string * json)) :
  urlparse_path rt (self_path req) = Some "/api/auth/login" ->
  read_body rt req = inr content ->
  json_loads rt content = Some (JDict d) ->
  let admin := Json.lookup "username" d = Some (JStr "admin") /\
               Json.lookup "password" d = Some (JStr "admin123") in
  (admin ->
   exists r,
     handle rt POST req = Sent r /\
     status r = 200 /\
     body r = Json.dumps (JDict [("success", JBool true);
                                 ("token", JStr "mock-jwt-token-12345");
                                 ("user", JDict [("username", JStr "admin");
                                                 ("role", JStr "admin")])])) /\
  (~ admin ->
   exists r,
     handle rt POST req = Sent r /\
     status r = 401 /\
     body r = Json.dumps (JDict [("success", JBool false);
                                 ("error", JStr "Invalid credentials")])).
Proof.
  intros H Hb Hj admin. unfold handle.
  rewrite (do_POST_auth_login rt req content H Hb).
  unfold auth_login, loads. rewrite Hj. cbn [bind ret].
  rewrite !get_dict. cbn [bind ret]. unfold field. subst admin. split.
  - intros [-> ->]. apply sent_json. reflexivity.
  - intros N. apply sent_json.
    destruct (Json.eq_str _ "admin") eqn:Eu; [|reflexivity].
    cbn [bind ret].
    destruct (Json.eq_str _ "admin123") eqn:Ep; [|reflexivity].
    apply eq_str_true in Eu, Ep. elim N.
    destruct (Json.lookup "username" d); [|discriminate Eu].
    destruct (Json.lookup "password" d); [|discriminate Ep].
    now subst.
Qed.

Lemma admin_login_accepts_only_admin_witness :
  exists r,
    handle Sample.rt POST
      (Sample.carrying "/api/auth/login?next=/dashboard"
         (Json.dumps Sample.admin_credentials)) = Sent r /\
    status r = 200 /\
    body r = Json.dumps Fixture.login_ok.
Proof.
  apply (admin_login_accepts_only_admin Sample.rt
           (Sample.carrying "/api/auth/login?next=/dashboard"
              (Json.dumps Sample.admin_credentials))
           (Json.dumps Sample.admin_credentials)
           [("username", JStr "admin"); ("password", JStr "admin123")]).
  - reflexivity.
  - reflexivity.
  - reflexivity.
  - split; reflexivity.
Defined.

(** C6.  On a POST to [/api/auth/login] or [/api/portal/auth/login] whose
    body is not valid JSON ([json.loads] raises), the response has status
    400 and as body the JSON text of [success] false with the error
    [Invalid request]. *)
Theorem login_rejects_malformed_json
    (rt : runtime) (req : request) (path content : string) :
  urlparse_path rt (self_path req) = Some path ->
  login_path path ->
  read_body rt req = inr content ->
  json_loads rt content = None ->
  exists r,
    handle rt POST req = Sent r /\
    status r = 400 /\
    body r = Json.dumps (JDict [("success", JBool false);
                                ("error", JStr "Invalid request")]).
Proof.
  intros H [-> | ->] Hb Hj; apply sent_json; unfold handle.
  - rewrite (do_POST_auth_login rt req content H Hb).
    unfold auth_login, loads. now rewrite Hj.
  - rewrite (do_POST_portal_auth_login rt req content H Hb).
    unfold portal_auth_login, loads. now rewrite Hj.
Qed.

Lemma login_rejects_malformed_json_witness :
  exists r,
    handle Sample.rt POST
      (Sample.carrying "/api/portal/auth/login" "{username: johndoe") = Sent r /\
    status r = 400 /\
    body r = Json.dumps Fixture.invalid_request.
Proof.
  apply (login_rejects_malformed_json Sample.rt
           (Sample.carrying "/api/portal/auth/login" "{username: johndoe")
           "/api/portal/auth/login" "{username: johndoe").
  - reflexivity.
  - right. reflexivity.
  - reflexivity.
  - reflexivity.
Defined.

Lemma find_user_customer_id (s : string) :
  match find_user s valid_users with
  | Some u => customer_id s = Some (id u) /\ password u = "password123"
  | None => customer_id s = None
  end.
Proof.
  unfold customer_id, valid_users, find_user.
  rewrite !(String.eqb_sym s).
  repeat match goal with
         | |- context [String.eqb ?a s] => destruct (String.eqb a s)
         end; simpl; auto.
Qed.

(** C10, as stated, fails: a user name that is a JSON array makes the
    membership test raise [TypeError], and the bare [except] answers 400,
    not 401. *)
Lemma portal_login_list_username_is_400 :
  let content := Json.dumps Sample.list_as_username in
  json_loads Sample.rt content = Some Sample.list_as_username /\
  exists r,
    handle Sample.rt POST (Sample.carrying "/api/portal/auth/login" content) = Sent r /\
    status r = 400 /\ status r <> 401.
Proof.
  split; [reflexivity|].
  eexists. split; [reflexivity|]. split; [reflexivity | discriminate].
Qed.

(** C10, amended.  On a POST to [/api/portal/auth/login] whose body is valid
    JSON.  When the body is an object with a user name that is neither an
    array nor an object: the response has status 200 and as body the JSON
    text of [success] true, the token ["customer-<id>-mock-token"] and a
    customer, exactly when the user name is one of ["johndoe"],
    ["CUST-0001"] (id 1), ["ahmad"], ["CUST-0002"] (id 2) and the password
    is ["password123"]; otherwise it has status 401 and [success] false.  A
    missing field counts as the empty string.  When the body has any other
    shape (not an object, or a user name that is an array or an object) the
    response has status 400 and [success] false. *)
Theorem portal_login_accepts_only_customers
    (rt : runtime) (req : request) (content : string) (data : json) :
  urlparse_path rt (self_path req) = Some "/api/portal/auth/login" ->
  read_body rt req = inr content ->
  json_loads rt content = Some data ->
  (forall d, data = JDict d -> hashable (field "username" (JStr "") d) ->
     (forall s n, portal_accepts d s n ->
        exists r customer,
          handle rt POST req = Sent r /\
          status r = 200 /\
          body r = Json.dumps
                     (JDict [("success", JBool true);
                             ("token", JStr ("customer-" ++ Py.str n ++ "-mock-token"));
                             ("customer", customer)])) /\
     ((forall s n, ~ portal_accepts d s n) ->
      exists r,
        handle rt POST req = Sent r /\
        status r = 401 /\
        body r = Json.dumps (JDict [("success", JBool false);
                                    ("error", JStr "Invalid username or password")]))) /\
  ((forall d, data = JDict d -> ~ hashable (field "username" (JStr "") d)) ->
   exists r,
     handle rt POST req = Sent r /\
     status r = 400 /\
     body r = Json.dumps (JDict [("success", JBool false);
                                 ("error", JStr "Invalid request")])).
Proof.
  intros H Hb Hj. unfold handle.
  rewrite (do_POST_portal_auth_login rt req content H Hb).
  unfold portal_auth_login, loads. rewrite Hj. cbn [bind ret]. split.
  - intros d -> Hh. rewrite !get_dict. cbn [bind ret]. unfold portal_accepts.
    destruct (field "username" (JStr "") d) as [| b | k | r | s | l | e];
      try contradiction; cbn [user_of bind ret];
      try (split;
           [intros s n (K & _); discriminate K
           | intros _; apply sent_json; reflexivity]).
    pose proof (find_user_customer_id s) as F.
    destruct (find_user s valid_users) as [u|].
    + destruct F as [Fid Fpw]. rewrite Fpw. split.
      * intros s' n ([= <-] & Hn & ->). rewrite Fid in Hn. injection Hn as <-.
        destruct (sent_json _ _ _ (eq_refl (send_json (portal_login_ok s u) 200)))
          as (r & E & Hs & Hr).
        exists r. eexists. repeat split; [exact E | exact Hs | exact Hr].
      * intros N. apply sent_json.
        destruct (Json.eq_str _ "password123") eqn:Ep; [|reflexivity].
        apply eq_str_true in Ep. elim (N s (id u)). auto.
    + split.
      * intros s' n ([= <-] & Hn & _). rewrite F in Hn. discriminate Hn.
      * intros _. apply sent_json. reflexivity.
  - intros N. apply sent_json.
    destruct data as [| b | k | r | s | l | d]; try reflexivity.
    rewrite !get_dict. cbn [bind ret].
    specialize (N d eq_refl).
    destruct (field "username" (JStr "") d); try (elim N; exact I); reflexivity.
Qed.

Lemma portal_login_accepts_only_customers_witness :
  exists r customer,
    handle Sample.rt POST
      (Sample.carrying "/api/portal/auth/login" (Json.dumps Sample.johndoe_credentials))
    = Sent r /\
    status r = 200 /\
    body r = Json.dumps (JDict [("success", JBool true);
                                ("token", JStr "customer-1-mock-token");
                                ("customer", customer)]).
Proof.
  apply (proj1 (proj1 (portal_login_accepts_only_customers Sample.rt
                  (Sample.carrying "/api/portal/auth/login"
                     (Json.dumps Sample.johndoe_credentials))
                  (Json.dumps Sample.johndoe_credentials)
                  Sample.johndoe_credentials
                  eq_refl eq_refl eq_refl)
                  [("username", JStr "johndoe"); ("password", JStr "password123")]
                  eq_refl I) "johndoe" 1).
  repeat split.
Defined.

(** X12.  A body that is valid JSON but not an object has no [get]: the
    [AttributeError] is caught and both login routes answer with status 400
    and the JSON text of [success] false, [Invalid request]. *)
Lemma login_rejects_non_object
    (rt : runtime) (req : request) (path content : string) (data : json) :
  urlparse_path rt (self_path req) = Some path ->
  login_path path ->
  read_body rt req = inr content ->
  json_loads rt content = Some data ->
  (forall d, data <> JDict d) ->
  exists r,
    handle rt POST req = Sent r /\
    status r = 400 /\
    body r = Json.dumps (JDict [("success", JBool false);
                                ("error", JStr "Invalid request")]).
Proof.
  intros H [-> | ->] Hb Hj Hd; apply sent_json; unfold handle.
  - rewrite (do_POST_auth_login rt req content H Hb).
    unfold auth_login, loads. rewrite Hj.
    destruct data; try reflexivity. now elim (Hd entries).
  - rewrite (do_POST_portal_auth_login rt req content H Hb).
    unfold portal_auth_login, loads. rewrite Hj.
    destruct data; try reflexivity. now elim (Hd entries).
Qed.

Lemma login_rejects_non_object_witness :
  exists r,
    handle Sample.rt POST (Sample.carrying "/api/auth/login" "[]") = Sent r /\
    status r = 400 /\
    body r = Json.dumps Fixture.invalid_request.
Proof.
  apply (login_rejects_non_object Sample.rt
           (Sample.carrying "/api/auth/login" "[]") "/api/auth/login" "[]" (JList [])).
  - reflexivity.
  - now left.
  - reflexivity.
  - reflexivity.
  - intros d. discriminate.
Defined.

(** X13.  A [Content-Length] that [int] rejects aborts [do_POST] before any
    route is tried. *)
Lemma do_POST_raises_on_bad_content_length
    (rt : runtime) (req : request) (path v : string) :
  urlparse_path rt (self_path req) = Some path ->
  content_length req = Some v ->
  Py.int v = None ->
  do_POST rt req = Uncaught ValueError.
Proof.
  intros H Hc Hi. unfold do_POST, read_body.
  now rewrite H, Hc, (int_within_none _ v Hi).
Qed.

Lemma do_POST_raises_on_bad_content_length_witness :
  do_POST Sample.rt
    {| self_path := "/api/devices"; content_length := Some "12 bytes"; rfile := "{}" |}
  = Uncaught ValueError.
Proof.
  apply (do_POST_raises_on_bad_content_length Sample.rt
           {| self_path := "/api/devices"; content_length := Some "12 bytes";
              rfile := "{}" |}
           "/api/devices" "12 bytes").
  - reflexivity.
  - reflexivity.
  - reflexivity.
Defined.

(** ** Statuses *)

(** Splits the [if] chain of a handler and keeps the value of each test. *)
Ltac split_route_eqn :=
  repeat match goal with
         | |- ?P (if ?c then _ else _) => destruct c eqn:?
         end.

(** Takes apart the values of the tests that are disjunctions or
    conjunctions. *)
Ltac split_tests :=
  repeat match goal with
         | E : _ || _ = false |- _ =>
             apply orb_false_iff in E; destruct E
         | E : _ || _ = true |- _ =>
             apply orb_true_iff in E
         | E : _ && _ = true |- _ =>
             apply andb_true_iff in E; destruct E
         end.

Lemma send_json_200_allowed (m : method) (parsed : option string) (data : json) :
  allowed_status m parsed (send_json data 200).
Proof. left. reflexivity. Qed.

Lemma serve_file_allowed (rt : runtime) (parsed : option string) (f : string) :
  allowed_status GET parsed (serve_file rt f).
Proof.
  unfold serve_file. destruct (read_file rt f); simpl; auto.
Qed.

Lemma auth_login_status (rt : runtime) (content : string) (data : json) (st : Z) :
  auth_login rt content = inr (data, st) -> st = 200 \/ st = 401.
Proof.
  unfold auth_login, loads.
  destruct (json_loads rt content) as [v|]; [|discriminate].
  cbn [bind ret]. destruct (get v "username" JNull) as [e|u]; [discriminate|].
  cbn [bind]. destruct (Json.eq_str u "admin").
  - destruct (get v "password" JNull) as [e|p]; [discriminate|].
    cbn [bind]. destruct (Json.eq_str p "admin123"); intros [= _ <-]; auto.
  - intros [= _ <-]; auto.
Qed.

Lemma portal_auth_login_status (rt : runtime) (content : string) (data : json) (st : Z) :
  portal_auth_login rt content = inr (data, st) -> st = 200 \/ st = 401.
Proof.
  unfold portal_auth_login, loads.
  destruct (json_loads rt content) as [v|]; [|discriminate].
  cbn [bind ret]. destruct (get v "username" (JStr "")) as [e|u]; [discriminate|].
  cbn [bind]. destruct (get v "password" (JStr "")) as [e|p]; [discriminate|].
  cbn [bind]. destruct (user_of u) as [e|[w|]]; [discriminate| |].
  - cbn [bind]. destruct u; try (intros [= _ <-]; auto).
    destruct (Json.eq_str p (password w)); intros [= _ <-]; auto.
  - cbn [bind]. intros [= _ <-]; auto.
Qed.

Lemma or_invalid_request_allowed (path : string) (block : raises (json * Z)) :
  login_path path ->
  (forall data st, block = inr (data, st) -> st = 200 \/ st = 401) ->
  allowed_status POST (Some path) (or_invalid_request block).
Proof.
  intros Hp Hs. destruct block as [e|[data st]]; simpl.
  - right. split; [reflexivity|]. split; [now exists path | now left].
  - destruct (Hs data st eq_refl) as [-> | ->]; [now left|].
    right. split; [reflexivity|]. split; [now exists path | now right].
Qed.

(** C5, as stated, fails: rejected credentials are answered with status 401,
    which is neither a success nor one of the two errors of the claim (the
    body is valid JSON and no file is involved). *)
Lemma rejected_login_is_401 :
  let content := Json.dumps Sample.wrong_credentials in
  json_loads Sample.rt content = Some Sample.wrong_credentials /\
  exists r,
    handle Sample.rt POST (Sample.carrying "/api/auth/login" content) = Sent r /\
    status r = 401 /\ status r <> 200 /\ status r <> 400 /\ status r <> 404.
Proof.
  split; [reflexivity|].
  eexists. split; [reflexivity|]. repeat split; discriminate.
Qed.

(** C5, amended.  Every response the code of the handler writes has status
    200, except on a POST to one of the two login routes, where it may be
    400 or 401; the only status it passes to [send_error] is 404, on a GET;
    and the only requests it hands over to the library, whose answer is not
    covered, are the GETs of a path that has no route. *)
Theorem only_login_and_missing_file_fail
    (rt : runtime) (m : method) (req : request) :
  allowed_status m (urlparse_path rt (self_path req)) (handle rt m req).
Proof.
  destruct m; unfold handle.
  - unfold do_GET.
    destruct (urlparse_path rt (self_path req)) as [path|]; [|exact I].
    split_route_eqn;
      try apply serve_file_allowed; try apply send_json_200_allowed;
      try (split; reflexivity).
    + destruct (if Py.isdigit _ then _ else _);
        [apply send_json_200_allowed | exact I].
    + split; [reflexivity|]. exists path. split; [reflexivity|].
      split_tests. unfold routed. simpl existsb.
      repeat rewrite orb_false_iff. tauto.
  - unfold do_POST.
    destruct (urlparse_path rt (self_path req)) as [path|]; [|exact I].
    destruct (read_body rt req) as [e|content]; [exact I|].
    destruct (String.eqb_spec path "/api/auth/login") as [E1|_].
    { apply or_invalid_request_allowed; [now left|].
      apply auth_login_status. }
    destruct (String.eqb_spec path "/api/portal/auth/login") as [E2|_].
    { apply or_invalid_request_allowed; [now right|].
      apply portal_auth_login_status. }
    split_route; apply send_json_200_allowed.
  - apply send_json_200_allowed.
Qed.

(** ** What an answer depends on *)

(** C3, as stated, fails: two POST requests with the same path and different
    bodies get different response bodies. *)
Lemma same_path_different_bodies :
  let accepted := Sample.carrying "/api/auth/login" (Json.dumps Sample.admin_credentials) in
  let rejected := Sample.carrying "/api/auth/login" (Json.dumps Sample.wrong_credentials) in
  self_path accepted = self_path rejected /\
  exists r1 r2,
    handle Sample.rt POST accepted = Sent r1 /\
    handle Sample.rt POST rejected = Sent r2 /\
    body r1 <> body r2.
Proof.
  split; [reflexivity|].
  do 2 eexists. split; [reflexivity|]. split; [reflexivity|].
  vm_compute. discriminate.
Qed.

(** C3, amended.  Of the requests the handler answers itself (it writes a
    response or calls [send_error]; a request handed over to the library is
    not covered), the answer is determined by the method, the path of the
    URL and the request body as the handler reads it; the body matters only
    on a POST to one of the two login routes.  Two such requests with the
    same method and the same path, other than a POST to a login route, get
    the same answer, whatever their query strings and bodies. *)
Theorem answer_determined_by_method_and_path (rt : runtime) (m : method) :
  (forall r1 r2 : request,
      urlparse_path rt (self_path r1) = urlparse_path rt (self_path r2) ->
      read_body rt r1 = read_body rt r2 ->
      written_here (handle rt m r1) ->
      handle rt m r1 = handle rt m r2) /\
  (forall (r1 r2 : request) (path : string),
      urlparse_path rt (self_path r1) = Some path ->
      urlparse_path rt (self_path r2) = Some path ->
      (m = POST -> ~ login_path path) ->
      written_here (handle rt m r1) -> written_here (handle rt m r2) ->
      handle rt m r1 = handle rt m r2).
Proof.
  split.
  - intros r1 r2 Hp Hb _. destruct m; unfold handle.
    + unfold do_GET. now rewrite Hp.
    + unfold do_POST. now rewrite Hp, Hb.
    + reflexivity.
  - intros r1 r2 path H1 H2 Hl A1 A2. destruct m; unfold handle in *.
    + unfold do_GET. now rewrite H1, H2.
    + unfold do_POST in *. rewrite H1 in *. rewrite H2 in *.
      destruct (read_body rt r1) as [e1|c1]; [contradiction|].
      destruct (read_body rt r2) as [e2|c2]; [contradiction|].
      destruct (String.eqb_spec path "/api/auth/login") as [E|_].
      { elim (Hl eq_refl). now left. }
      destruct (String.eqb_spec path "/api/portal/auth/login") as [E|_].
      { elim (Hl eq_refl). now right. }
      reflexivity.
    + reflexivity.
Qed.

Lemma answer_determined_by_method_and_path_witness :
  handle Sample.rt POST (Sample.carrying "/api/devices/3/reboot?force=1" "{}")
  = handle Sample.rt POST (Sample.bare "/api/devices/3/reboot").
Proof.
  apply (proj2 (answer_determined_by_method_and_path Sample.rt POST)
           (Sample.carrying "/api/devices/3/reboot?force=1" "{}")
           (Sample.bare "/api/devices/3/reboot")
           "/api/devices/3/reboot").
  - reflexivity.
  - reflexivity.
  - intros _ [H | H]; discriminate H.
  - exact I.
  - exact I.
Defined.

(** * Further properties of the handler *)

(** ** The announced length *)

Lemma send_json_length (data : json) (st : Z) :
  content_length_matches (send_json data st).
Proof. reflexivity. Qed.

Lemma serve_file_length (rt : runtime) (f : string) :
  content_length_matches (serve_file rt f).
Proof. unfold serve_file. now destruct (read_file rt f). Qed.

Lemma or_invalid_request_length (block : raises (json * Z)) :
  content_length_matches (or_invalid_request block).
Proof. destruct block as [e|[d s]]; apply send_json_length. Qed.

(** X1.  Whatever the method, the request and the environment, a response
    written by the handler announces in [Content-Length] the length of the
    body it writes. *)
Theorem content_length_is_body_length (rt : runtime) (m : method) (req : request) :
  content_length_matches (handle rt m req).
Proof.
  destruct m; unfold handle.
  - unfold do_GET.
    destruct (urlparse_path rt (self_path req)) as [path|]; [|exact I].
    split_route;
      try apply serve_file_length; try apply send_json_length; try exact I.
    destruct (if Py.isdigit _ then _ else _); [apply send_json_length | exact I].
  - unfold do_POST.
    destruct (urlparse_path rt (self_path req)) as [path|]; [|exact I].
    destruct (read_body rt req) as [e|content]; [exact I|].
    split_route; try apply or_invalid_request_length; apply send_json_length.
  - apply send_json_length.
Qed.

(** ** Exceptions that leave the handler *)

Lemma serve_file_abort (rt : runtime) (req : request) (path f : string) :
  urlparse_path rt (self_path req) = Some path ->
  serves path f ->
  get_abort_explained rt req (serve_file rt f).
Proof.
  intros H S. unfold serve_file. destruct (read_file rt f) eqn:E; simpl; trivial.
  right. left. split; [reflexivity | now exists path, f].
Qed.

(** Turns the tests that held into the path they name. *)
Ltac path_is_literal :=
  repeat match goal with
         | E : _ \/ _ |- _ => destruct E
         | E : (?p =? _) = true |- _ => apply String.eqb_eq in E; subst p
         end.

(** X2.  Before it answers or hands the request over, the code of [do_GET]
    is aborted by an exception in three cases only: [urlparse] raises; the
    file of the route (the template of the page, or the file below
    [web/static/]) cannot be read for another reason than its absence; or
    the request is for a device detail and the last path segment passes
    [isdigit] while [int] rejects it, for a character that is not a decimal
    digit or for more digits than the interpreter converts. *)
Theorem do_GET_abort_causes (rt : runtime) (req : request) :
  get_abort_explained rt req (handle rt GET req).
Proof.
  unfold handle, do_GET.
  destruct (urlparse_path rt (self_path req)) as [path|] eqn:E.
  2:{ left. now split. }
  split_route_eqn; split_tests; try exact I;
    try (path_is_literal;
         (eapply serve_file_abort; [eassumption|]);
         first [ left; simpl; tauto
               | right; left; split; [assumption | reflexivity]
               | right; right; split; [assumption | reflexivity] ]).
  destruct (Py.isdigit _) eqn:Hd; [|exact I].
  destruct (Py.int_within _ _) as [n|] eqn:Hi; [exact I|].
  right. right. split; [reflexivity|]. exists path.
  repeat split; trivial. now apply guarded_int_raises_iff.
Qed.

Lemma read_body_raises (rt : runtime) (req : request) (e : exception) :
  read_body rt req = inl e ->
  (e = ValueError /\
   exists v, content_length req = Some v /\
             Py.int_within (int_max_str_digits rt) v = None) \/
  (exists v n, content_length req = Some v /\
               Py.int_within (int_max_str_digits rt) v = Some n /\
               0 < n /\ read_failure rt n = Some e).
Proof.
  unfold read_body.
  destruct (content_length req) as [v|]; cbn [bind ret]; [|discriminate].
  destruct (Py.int_within _ v) as [n|] eqn:Hi; cbn [bind ret raise].
  - destruct (Z.gtb_spec n 0) as [G|G]; [|discriminate].
    destruct (read_failure rt n) as [x|] eqn:Hf; [|discriminate].
    intros [= <-]. right. exists v, n. repeat split; trivial; lia.
  - intros [= <-]. left. split; [reflexivity | now exists v].
Qed.

(** Once the body is read, every route of [do_POST] writes a response: the
    [try] blocks of the login routes let no exception out. *)
Lemma do_POST_answers (rt : runtime) (req : request) (path content : string) :
  urlparse_path rt (self_path req) = Some path ->
  read_body rt req = inr content ->
  exists r, do_POST rt req = Sent r.
Proof.
  intros H Hb. unfold do_POST. rewrite H, Hb.
  repeat match goal with
         | |- context [if ?c then _ else _] => destruct c
         end;
    try (match goal with
         | |- context [or_invalid_request ?b] => destruct b as [?|[? ?]]
         end); eexists; reflexivity.
Qed.

(** X3.  [do_POST] is aborted by an exception only when [urlparse] raises,
    when [int] rejects the [Content-Length] header, or when [rfile.read]
    cannot have a buffer of the announced length; [do_PUT] is never
    aborted. *)
Theorem do_POST_abort_causes (rt : runtime) (req : request) :
  post_abort_explained rt req (handle rt POST req) /\
  written_here (handle rt PUT req).
Proof.
  split; [|exact I].
  destruct (urlparse_path rt (self_path req)) as [path|] eqn:E.
  2:{ unfold handle, do_POST. rewrite E. left. now split. }
  destruct (read_body rt req) as [e|content] eqn:Hb.
  - unfold handle, do_POST. rewrite E, Hb. right.
    now apply read_body_raises.
  - destruct (do_POST_answers rt req path content E Hb) as [r Hr].
    unfold handle. rewrite Hr. exact I.
Qed.

(** ** Suffixes, substrings and segments *)

Section SuffixFacts.

Lemma substring_split (s : string) (k : nat) :
  (k <= String.length s)%nat ->
  s = substring 0 k s ++ substring k (String.length s - k) s.
Proof.
  revert k. induction s as [|c s IH]; intros [|k] H; simpl in *;
    try reflexivity; try lia.
  - now rewrite substring_all.
  - rewrite <- (IH k) by lia. reflexivity.
Qed.

Lemma endswith_inv (s p : string) :
  Py.endswith s p = true -> exists a, s = a ++ p.
Proof.
  unfold Py.endswith. intros H. apply andb_true_iff in H. destruct H as [Hl He].
  apply Nat.leb_le in Hl. apply String.eqb_eq in He.
  exists (substring 0 (String.length s - String.length p) s).
  pose proof (substring_split s (String.length s - String.length p)) as K.
  replace (String.length s - (String.length s - String.length p))%nat
    with (String.length p) in K by lia.
  rewrite He in K. apply K. lia.
Qed.

(** Of two suffixes of a string, the shorter is a suffix of the longer. *)
Lemma suffix_of_suffix (a b p q : string) :
  a ++ p = b ++ q -> (String.length p <= String.length q)%nat ->
  exists c, q = c ++ p.
Proof.
  revert a. induction b as [|x b IH]; intros a H Hl.
  - exists a. now rewrite H.
  - destruct a as [|y a].
    + simpl in H. subst p. simpl in Hl. rewrite length_app in Hl. lia.
    + simpl in H. injection H as _ H. now apply (IH a).
Qed.

Lemma endswith_of_both (s p q : string) :
  Py.endswith s p = true -> Py.endswith s q = true ->
  (String.length p <= String.length q)%nat -> Py.endswith q p = true.
Proof.
  intros Hp Hq Hl.
  destruct (endswith_inv s p Hp) as [a Ea].
  destruct (endswith_inv s q Hq) as [b Eb].
  destruct (suffix_of_suffix a b p q) as [c ->]; [congruence | exact Hl |].
  apply endswith_app.
Qed.

(** Two strings neither of which ends with the other are not both suffixes
    of one string. *)
Lemma suffixes_exclusive (s p q : string) :
  Py.endswith q p = false -> Py.endswith p q = false ->
  Py.endswith s p = true -> Py.endswith s q = false.
Proof.
  intros Hqp Hpq Hp. destruct (Py.endswith s q) eqn:Hq; [|reflexivity].
  destruct (Nat.le_ge_cases (String.length p) (String.length q)) as [L|L].
  - rewrite (endswith_of_both s p q Hp Hq L) in Hqp. discriminate Hqp.
  - rewrite (endswith_of_both s q p Hq Hp L) in Hpq. discriminate Hpq.
Qed.

(** A prefix that leaves room for the suffix does not change the test. *)
Lemma endswith_app_l (a s p : string) :
  (String.length p <= String.length s)%nat ->
  Py.endswith (a ++ s) p = Py.endswith s p.
Proof.
  intros Hl.
  destruct (Py.endswith s p) eqn:Hs.
  - destruct (endswith_inv s p Hs) as [c ->].
    rewrite <- app_assoc. apply endswith_app.
  - destruct (Py.endswith (a ++ s) p) eqn:Has; [|reflexivity].
    destruct (endswith_inv _ _ Has) as [b Eb].
    destruct (suffix_of_suffix b a p s) as [c ->]; [congruence | exact Hl |].
    rewrite endswith_app in Hs. discriminate Hs.
Qed.

Lemma last_char_app (s p : string) :
  p <> EmptyString -> last_char (s ++ p) = last_char p.
Proof.
  intros Hp. induction s as [|c s IH]; simpl; [reflexivity|].
  rewrite IH. destruct p as [|d p]; [now elim Hp|].
  simpl. now destruct (last_char p).
Qed.

Lemma last_char_all (P : ascii -> bool) (s : string) (c : ascii) :
  Py.all_chars P s = true -> last_char s = Some c -> P c = true.
Proof.
  induction s as [|d s IH]; simpl; [discriminate|].
  intros H. apply andb_true_iff in H. destruct H as [Hd Hs].
  destruct (last_char s) as [e|].
  - intros [= <-]. now apply IH.
  - now intros [= <-].
Qed.

(** A string whose last character is a decimal digit does not end with a
    word whose last character is none. *)
Lemma digits_do_not_end_with (a n p : string) (c : ascii) :
  n <> EmptyString -> Py.all_chars Py.is_ascii_digit n = true ->
  last_char p = Some c -> Py.is_ascii_digit c = false ->
  Py.endswith (a ++ n) p = false.
Proof.
  intros Hn Hd Hc Hnd.
  destruct (Py.endswith (a ++ n) p) eqn:E; [|reflexivity].
  destruct (endswith_inv _ _ E) as [b Eb].
  assert (Hp : p <> EmptyString) by (intros ->; discriminate Hc).
  assert (L : last_char n = Some c).
  { rewrite <- (last_char_app a n Hn), Eb, (last_char_app b p Hp). exact Hc. }
  rewrite (last_char_all _ n c Hd L) in Hnd. discriminate Hnd.
Qed.

Lemma contains_prefix (p s : string) :
  Py.startswith s p = true -> Py.contains p s = true.
Proof.
  unfold Py.startswith. intros H.
  destruct s; cbn [Py.contains]; now rewrite H.
Qed.

Lemma contains_app (p a b : string) : Py.contains p (a ++ p ++ b) = true.
Proof.
  induction a as [|c a IH].
  - change (EmptyString ++ p ++ b) with (p ++ b).
    apply contains_prefix, startswith_app.
  - change (Py.contains p (String c a ++ p ++ b))
      with (String.prefix p (String c (a ++ p ++ b)) || Py.contains p (a ++ p ++ b)).
    rewrite IH. apply orb_true_r.
Qed.

Lemma substring_prefix (k : nat) (s : string) :
  Py.startswith s (substring 0 k s) = true.
Proof.
  unfold Py.startswith. revert k.
  induction s as [|c s IH]; intros [|k]; simpl; try reflexivity.
  destruct (ascii_dec c c) as [_|ne]; [apply IH | now elim ne].
Qed.

Lemma substring_length (k : nat) (s : string) :
  String.length (substring 0 k s) = Nat.min k (String.length s).
Proof.
  revert k. induction s as [|c s IH]; intros [|k]; simpl; try reflexivity.
  now rewrite IH.
Qed.

(** The pieces of a string that has no separator: the string itself *)
Lemma split_without_sep (sep : ascii) (s : string) :
  Py.all_chars (fun c => negb (Ascii.eqb c sep)) s = true ->
  Py.split sep s = [s].
Proof.
  induction s as [|c s IH]; simpl; [reflexivity|].
  intros H. apply andb_true_iff in H. destruct H as [Hc Hs].
  apply negb_true_iff in Hc. now rewrite Hc, (IH Hs).
Qed.

(** The last piece of a string is what follows its last separator. *)
Lemma split_last_piece (sep : ascii) (a s : string) :
  Py.all_chars (fun c => negb (Ascii.eqb c sep)) s = true ->
  Py.last_item (Py.split sep (a ++ String sep s)) = s.
Proof.
  intros Hs.
  assert (K : exists h l, Py.split sep (a ++ String sep s) = h :: (l ++ [s])%list).
  { induction a as [|c a IH]; simpl.
    - rewrite Ascii.eqb_refl, (split_without_sep sep s Hs).
      now exists EmptyString, [].
    - destruct IH as (h & l & ->).
      destruct (Ascii.eqb c sep).
      + now exists EmptyString, (h :: l).
      + now exists (String c h), l. }
  destruct K as (h & l & ->). unfold Py.last_item.
  change (h :: (l ++ [s])%list) with (((h :: l) ++ [s])%list). apply List.last_last.
Qed.

Lemma digits_without_slash (s : string) :
  Py.all_chars Py.is_ascii_digit s = true ->
  Py.all_chars (fun c => negb (Ascii.eqb c "/")) s = true.
Proof.
  induction s as [|c s IH]; simpl; [reflexivity|].
  intros H. apply andb_true_iff in H. destruct H as [Hc Hs].
  rewrite (IH Hs), andb_true_r.
  destruct c as [[] [] [] [] [] [] [] []]; solve [reflexivity | discriminate Hc].
Qed.

End SuffixFacts.

(** ** Routes of [do_GET], continued *)

(** X4.  Every page path, and every path that starts with [/device/], is
    answered from its template: status 200 with the content type
    [text/html; charset=utf-8] and the bytes of the file when the template
    can be read, [send_error(404, 'File not found: ...')] when it is
    absent, and an uncaught [OSError] otherwise. *)
Theorem page_routes_serve_html (rt : runtime) (req : request) (path f : string) :
  urlparse_path rt (self_path req) = Some path ->
  In (path, f) pages \/
  (Py.startswith path "/device/" = true /\ f = "web/templates/device-detail.html") ->
  handle rt GET req = html_file_outcome rt f.
Proof.
  intros H [Hin | [Hp ->]]; unfold handle, do_GET, html_file_outcome.
  - rewrite H. unfold pages in Hin. simpl in Hin.
    repeat (destruct Hin as [[= <- <-] | Hin];
            [unfold serve_file; now destruct (read_file rt _) |]).
    contradiction.
  - destruct (startswith_inv _ _ Hp) as [rest ->].
    rewrite H. decide_tests.
    unfold serve_file. now destruct (read_file rt _).
Qed.

Lemma page_routes_serve_html_witness :
  handle Sample.rt GET (Sample.bare "/dashboard?tab=2")
  = Sent {| status := 200;
            headers := [("Content-Type", "text/html; charset=utf-8");
                        ("Content-Length", "50")];
            body := Sample.dashboard_html |}.
Proof.
  apply (page_routes_serve_html Sample.rt (Sample.bare "/dashboard?tab=2")
           "/dashboard" "web/templates/dashboard.html").
  - reflexivity.
  - left. simpl. tauto.
Defined.

(** X5.  A path below [/static/] is answered from the file ['web' + path],
    taken as it is: [send_error(404)] when [os.path.exists] denies it;
    when the file is read, status 200, its bytes, and a content type chosen
    by the end of the request path: [.html], [.css], [.js], or
    [application/octet-stream] for any other. *)
Theorem static_route_serves_file (rt : runtime) (req : request) (path : string) :
  urlparse_path rt (self_path req) = Some path ->
  Py.startswith path "/static/" = true ->
  (os_path_exists rt ("web" ++ path) = false ->
   handle rt GET req = SendError 404 None) /\
  (forall c,
     os_path_exists rt ("web" ++ path) = true ->
     read_file rt ("web" ++ path) = Content c ->
     exists content_type,
       handle rt GET req
       = Sent {| status := 200;
                 headers := [("Content-Type", content_type);
                             ("Content-Length", Py.str (Z.of_nat (String.length c)))];
                 body := c |} /\
       (Py.endswith path ".html" = true -> content_type = "text/html; charset=utf-8") /\
       (Py.endswith path ".css" = true -> content_type = "text/css") /\
       (Py.endswith path ".js" = true -> content_type = "application/javascript") /\
       (Py.endswith path ".html" = false -> Py.endswith path ".css" = false ->
        Py.endswith path ".js" = false -> content_type = "application/octet-stream")).
Proof.
  intros H Hp. destruct (startswith_inv _ _ Hp) as [rest ->].
  unfold handle, do_GET. rewrite H. decide_tests.
  cbv zeta. split.
  - intros E. now rewrite E.
  - intros c E R. rewrite E. unfold serve_file. rewrite R.
    rewrite (endswith_app_l "web" ("/static/" ++ rest) ".html"),
            (endswith_app_l "web" ("/static/" ++ rest) ".css"),
            (endswith_app_l "web" ("/static/" ++ rest) ".js")
      by (rewrite length_app; simpl; lia).
    eexists. split; [reflexivity|].
    set (p := "/static/" ++ rest).
    destruct (Py.endswith p ".html") eqn:Eh.
    { pose proof (suffixes_exclusive p ".html" ".css" eq_refl eq_refl Eh) as K1.
      pose proof (suffixes_exclusive p ".html" ".js" eq_refl eq_refl Eh) as K2.
      repeat split; intros; try reflexivity; congruence. }
    destruct (Py.endswith p ".css") eqn:Ec.
    { pose proof (suffixes_exclusive p ".css" ".js" eq_refl eq_refl Ec) as K.
      repeat split; intros; try reflexivity; congruence. }
    destruct (Py.endswith p ".js") eqn:Ej;
      repeat split; intros; try reflexivity; congruence.
Qed.

Lemma static_route_serves_file_witness :
  handle Sample.rt GET (Sample.bare "/static/css/app.css") = SendError 404 None.
Proof.
  apply (proj1 (static_route_serves_file Sample.rt
                  (Sample.bare "/static/css/app.css") "/static/css/app.css"
                  eq_refl eq_refl)).
  reflexivity.
Defined.

(** X6.  Below [/api/devices/] the five routes chosen by the end of the
    path exclude each other, and each answers with status 200 and, as body,
    the JSON text of its own fixed data, whatever stands between the prefix
    and the suffix; the five bodies differ from each other. *)
Theorem device_subresource_routes (rt : runtime) (req : request) (path : string) :
  urlparse_path rt (self_path req) = Some path ->
  Py.startswith path "/api/devices/" = true ->
  let answers (suffix : string) (data : json) :=
    Py.endswith path suffix = true ->
    exists r, handle rt GET req = Sent r /\ status r = 200 /\
              body r = Json.dumps data in
  answers "/wifi" Fixture.wifi /\
  answers "/wan" Fixture.wan /\
  answers "/parameters" Fixture.parameters /\
  answers "/pon" Fixture.pon /\
  answers "/clients" Fixture.clients /\
  NoDup (map Json.dumps [Fixture.wifi; Fixture.wan; Fixture.parameters;
                         Fixture.pon; Fixture.clients]).
Proof.
  intros H Hp answers. subst answers. cbv beta.
  destruct (startswith_inv _ _ Hp) as [rest ->].
  unfold handle, do_GET. rewrite H. decide_tests.
  set (p := "/api/devices/" ++ rest).
  repeat split;
    try (intros E; apply sent_json;
         repeat match goal with
                | |- context [Py.endswith p ?q] =>
                    first [ rewrite E
                          | match type of E with
                            | Py.endswith _ ?s = true =>
                                rewrite (suffixes_exclusive p s q eq_refl eq_refl E)
                            end ]
                end; reflexivity).
  repeat (constructor; [simpl; intros K;
                        repeat (destruct K as [K|K]; [discriminate K|]);
                        exact K |]).
  constructor.
Qed.

Lemma device_subresource_routes_witness :
  exists r,
    handle Sample.rt GET (Sample.bare "/api/devices/pon") = Sent r /\
    status r = 200 /\
    body r = Json.dumps Fixture.pon.
Proof.
  apply (proj1 (proj2 (proj2 (proj2
           (device_subresource_routes Sample.rt (Sample.bare "/api/devices/pon")
              "/api/devices/pon" eq_refl eq_refl))))).
  reflexivity.
Defined.

(** X7.  A GET of [/api/devices/<n>], with [<n>] a decimal numeral that
    the interpreter converts (no more digits than its limit, 4300 by
    default), is answered with status 200 and, as body, the JSON text of
    the device detail whose id is the value of the numeral: leading zeros
    are dropped. *)
Theorem device_detail_of_number (rt : runtime) (req : request) (n : string) :
  urlparse_path rt (self_path req) = Some ("/api/devices/" ++ n) ->
  n <> EmptyString ->
  Py.all_chars Py.is_ascii_digit n = true ->
  within_limit (int_max_str_digits rt) (String.length n) ->
  exists r,
    handle rt GET req = Sent r /\
    status r = 200 /\
    body r = Json.dumps (Fixture.device_detail (decimal n)).
Proof.
  intros H Hn Hd W.
  assert (L : Py.last_item (Py.split "/" ("/api/devices/" ++ n)) = n).
  { change ("/api/devices/" ++ n) with ("/api/devices" ++ String "/" n).
    apply split_last_piece, digits_without_slash, Hd. }
  pose proof (device_detail_id rt req _ H (startswith_app _ _)
                (digits_do_not_end_with _ n "/wifi" "i" Hn Hd eq_refl eq_refl)
                (digits_do_not_end_with _ n "/wan" "n" Hn Hd eq_refl eq_refl)
                (digits_do_not_end_with _ n "/parameters" "s" Hn Hd eq_refl eq_refl)
                (digits_do_not_end_with _ n "/pon" "n" Hn Hd eq_refl eq_refl)
                (digits_do_not_end_with _ n "/clients" "s" Hn Hd eq_refl eq_refl))
    as K.
  cbv zeta in K. rewrite L in K.
  exact (sent_json _ _ _ (proj1 K Hn Hd W)).
Qed.

Lemma device_detail_of_number_witness :
  exists r,
    handle Sample.rt GET (Sample.bare "/api/devices/007") = Sent r /\
    status r = 200 /\
    body r = Json.dumps (Fixture.device_detail 7).
Proof.
  apply (device_detail_of_number Sample.rt (Sample.bare "/api/devices/007") "007").
  - reflexivity.
  - discriminate.
  - reflexivity.
  - right. simpl. lia.
Defined.

(** ** The device detail route, continued *)

(** X8.  On the device detail route the handler is aborted by
    [ValueError] exactly when the last path segment passes [isdigit] and
    [int] rejects it: it has a character that is not a decimal digit (a
    superscript one, two or three) or more digits than the interpreter
    converts.  In every other case the response has status 200 and, as
    body, the JSON text of a device detail. *)
Theorem device_detail_aborts_exactly (rt : runtime) (req : request) (path : string) :
  urlparse_path rt (self_path req) = Some path ->
  Py.startswith path "/api/devices/" = true ->
  Py.endswith path "/wifi" = false ->
  Py.endswith path "/wan" = false ->
  Py.endswith path "/parameters" = false ->
  Py.endswith path "/pon" = false ->
  Py.endswith path "/clients" = false ->
  let device_id := Py.last_item (Py.split "/" path) in
  (unconvertible (int_max_str_digits rt) device_id ->
   handle rt GET req = Uncaught ValueError) /\
  (~ unconvertible (int_max_str_digits rt) device_id ->
   exists n r,
     handle rt GET req = Sent r /\
     status r = 200 /\
     body r = Json.dumps (Fixture.device_detail n)).
Proof.
  intros H Hp H1 H2 H3 H4 H5 device_id.
  unfold handle. rewrite (do_GET_device_detail rt req path H Hp H1 H2 H3 H4 H5).
  fold device_id. cbv zeta. split.
  - intros U. pose proof U as [Hd _].
    apply (guarded_int_raises_iff _ _ Hd) in U. now rewrite Hd, U.
  - intros N. destruct (Py.isdigit device_id) eqn:Hd.
    + destruct (Py.int_within _ device_id) as [n|] eqn:Hi.
      * exists n. apply sent_json. reflexivity.
      * elim N. now apply guarded_int_raises_iff.
    + exists 1. apply sent_json. reflexivity.
Qed.

Lemma device_detail_aborts_exactly_witness :
  exists n r,
    handle Sample.rt GET (Sample.bare "/api/devices/router-12") = Sent r /\
    status r = 200 /\
    body r = Json.dumps (Fixture.device_detail n).
Proof.
  apply (proj2 (device_detail_aborts_exactly Sample.rt
                  (Sample.bare "/api/devices/router-12") "/api/devices/router-12"
                  eq_refl eq_refl eq_refl eq_refl eq_refl eq_refl eq_refl)).
  intros [H _]. discriminate H.
Defined.

(** ** Routes of [do_POST], continued *)

(** X9.  The body [do_POST] reads is the start of what is left on
    [rfile], of the length announced by [Content-Length] or shorter when
    the stream ends before; without the header, or with a length that is
    zero or negative, nothing is read. *)
Theorem read_body_is_announced_prefix
    (rt : runtime) (req : request) (content : string) :
  read_body rt req = inr content ->
  exists n,
    (content_length req = None /\ n = 0 \/
     exists v, content_length req = Some v /\ Py.int v = Some n) /\
    Py.startswith (rfile req) content = true /\
    String.length content = Nat.min (Z.to_nat n) (String.length (rfile req)).
Proof.
  unfold read_body.
  assert (K : forall n,
             (if n >? 0
              then match read_failure rt n with
                   | Some e => raise e
                   | None => ret (substring 0 (Z.to_nat n) (rfile req))
                   end
              else ret EmptyString) = inr content ->
             Py.startswith (rfile req) content = true /\
             String.length content = Nat.min (Z.to_nat n) (String.length (rfile req))).
  { intros n. destruct (Z.gtb_spec n 0) as [G|G].
    - destruct (read_failure rt n); [discriminate|]. intros [= <-].
      split; [apply substring_prefix | apply substring_length].
    - intros [= <-]. replace (Z.to_nat n) with 0%nat by lia.
      split; [now destruct (rfile req) | reflexivity]. }
  destruct (content_length req) as [v|]; cbn [bind ret].
  - destruct (Py.int_within _ v) as [n|] eqn:Hi; cbn [bind ret raise];
      [|discriminate].
    intros Hr. exists n. split; [|now apply K].
    right. exists v. split; [reflexivity|]. now apply int_within_some in Hi.
  - intros Hr. exists 0. split; [now left | now apply K].
Qed.

Lemma read_body_is_announced_prefix_witness :
  exists n,
    (content_length {| self_path := "/api/auth/login";
                       content_length := Some "5";
                       rfile := "{}" |} = None /\ n = 0 \/
     exists v, Some "5" = Some v /\ Py.int v = Some n) /\
    Py.startswith "{}" "{}" = true /\
    String.length "{}" = Nat.min (Z.to_nat n) 2.
Proof.
  apply (read_body_is_announced_prefix Sample.rt
           {| self_path := "/api/auth/login";
              content_length := Some "5";
              rfile := "{}" |} "{}").
  reflexivity.
Defined.

(** X10.  A POST whose path has [/reboot] or [/refresh] anywhere in it is
    answered, once the body is read, with status 200 and, as body, the JSON
    text of [success] true and the message [Command queued]: no such path
    is one of the login, logout or device creation paths, which are tried
    before or after. *)
Theorem reboot_or_refresh_anywhere
    (rt : runtime) (req : request) (path content : string) :
  urlparse_path rt (self_path req) = Some path ->
  read_body rt req = inr content ->
  (exists a b, path = a ++ "/reboot" ++ b) \/
  (exists a b, path = a ++ "/refresh" ++ b) ->
  exists r,
    handle rt POST req = Sent r /\
    status r = 200 /\
    body r = Json.dumps (JDict [("success", JBool true);
                                ("message", JStr "Command queued")]).
Proof.
  intros H Hb Hc. apply sent_json.
  assert (C : Py.contains "/reboot" path || Py.contains "/refresh" path = true).
  { destruct Hc as [(a & b & ->) | (a & b & ->)]; rewrite contains_app;
      [reflexivity | apply orb_true_r]. }
  unfold handle, do_POST. rewrite H, Hb.
  repeat match goal with
         | |- context [String.eqb path ?l] =>
             destruct (String.eqb_spec path l) as [->|_];
             [vm_compute in C; discriminate C |]
         end.
  change (false || false) with false. cbv iota. now rewrite C.
Qed.

Lemma reboot_or_refresh_anywhere_witness :
  exists r,
    handle Sample.rt POST (Sample.bare "/api/devices/3/refresh-parameters") = Sent r /\
    status r = 200 /\
    body r = Json.dumps Fixture.command_queued.
Proof.
  apply (reboot_or_refresh_anywhere Sample.rt
           (Sample.bare "/api/devices/3/refresh-parameters")
           "/api/devices/3/refresh-parameters" EmptyString).
  - reflexivity.
  - reflexivity.
  - right. exists "/api/devices/3", "-parameters". reflexivity.
Defined.

(** X11.  A POST to any path but the two login paths, once the body is
    read, is answered with status 200 and, as body, the JSON text of an
    object whose first field is [success] true, whatever the request body. *)
Theorem post_outside_login_succeeds
    (rt : runtime) (req : request) (path content : string) :
  urlparse_path rt (self_path req) = Some path ->
  ~ login_path path ->
  read_body rt req = inr content ->
  exists more r,
    handle rt POST req = Sent r /\
    status r = 200 /\
    body r = Json.dumps (JDict (("success", JBool true) :: more)).
Proof.
  intros H N Hb. unfold handle, do_POST. rewrite H, Hb.
  destruct (String.eqb_spec path "/api/auth/login") as [E|_].
  { elim N. now left. }
  destruct (String.eqb_spec path "/api/portal/auth/login") as [E|_].
  { elim N. now right. }
  repeat match goal with
         | |- context [if ?c then _ else _] => destruct c
         end; do 2 eexists; repeat split.
Qed.

Lemma post_outside_login_succeeds_witness :
  exists more r,
    handle Sample.rt POST (Sample.carrying "/api/customers" "not json") = Sent r /\
    status r = 200 /\
    body r = Json.dumps (JDict (("success", JBool true) :: more)).
Proof.
  apply (post_outside_login_succeeds Sample.rt
           (Sample.carrying "/api/customers" "not json") "/api/customers" "not json").
  - reflexivity.
  - intros [H | H]; discriminate H.
  - reflexivity.
Defined.

(** X14.  An accepted portal login answers with status 200 and, as body,
    the JSON text of the record of the customer: its number, its code
    [CUST-000<id>] and its name, whichever of its two user names was given,
    and as [email] the given user name in lower case followed by
    [@email.com]. *)
Theorem portal_login_customer_record
    (rt : runtime) (req : request) (content : string) (d : list (string * json))
    (s : string) (n : Z) :
  urlparse_path rt (self_path req) = Some "/api/portal/auth/login" ->
  read_body rt req = inr content ->
  json_loads rt content = Some (JDict d) ->
  field "username" (JStr "") d = JStr s ->
  customer_id s = Some n ->
  field "password" (JStr "") d = JStr "password123" ->
  exists r,
    handle rt POST req = Sent r /\
    status r = 200 /\
    body r = Json.dumps
      (JDict [("success", JBool true);
              ("token", JStr ("customer-" ++ Py.str n ++ "-mock-token"));
              ("customer",
               JDict [("id", JInt n);
                      ("customerCode", JStr ("CUST-000" ++ Py.str n));
                      ("name", JStr (if (n =? 1)%Z then "John Doe" else "Ahmad Susanto"));
                      ("email", JStr (Py.lower s ++ "@email.com"));
                      ("status", JStr "active")])]).
Proof.
  intros H Hb Hj Hu Hn Hp. apply sent_json. unfold handle.
  rewrite (do_POST_portal_auth_login rt req content H Hb).
  unfold portal_auth_login, loads. rewrite Hj. cbn [bind ret].
  rewrite !get_dict. cbn [bind ret]. rewrite Hu, Hp. cbn [user_of bind ret].
  unfold customer_id in Hn. unfold valid_users, find_user.
  rewrite !(String.eqb_sym s) in Hn.
  repeat match goal with
         | |- context [String.eqb ?a s] => destruct (String.eqb a s)
         end;
    simpl in Hn; try discriminate Hn; injection Hn as <-; reflexivity.
Qed.

Lemma portal_login_customer_record_witness :
  exists r,
    handle Sample.rt POST
      (Sample.carrying "/api/portal/auth/login" (Json.dumps Sample.johndoe_credentials))
    = Sent r /\
    status r = 200 /\
    body r = Json.dumps (portal_login_ok "johndoe"
                           {| id := 1; code := "CUST-0001"; name := "John Doe";
                              password := "password123" |}).
Proof.
  apply (portal_login_customer_record Sample.rt
           (Sample.carrying "/api/portal/auth/login"
              (Json.dumps Sample.johndoe_credentials))
           (Json.dumps Sample.johndoe_credentials)
           [("username", JStr "johndoe"); ("password", JStr "password123")]
           "johndoe" 1); reflexivity.
Defined.

(** ** The fall-through of [do_GET] *)

Lemma serve_file_not_super (rt : runtime) (f : string) :
  serve_file rt f <> Super_do_GET.
Proof. unfold serve_file. destruct (read_file rt f); discriminate. Qed.

(** Settles [delegated_iff_unrouted] on a route that was taken: the outcome
    is not the hand-over, and the test that chose the route makes the path
    a routed one. *)
Ltac taken_route :=
  split;
  [ intros K; exfalso; revert K;
    first [ apply serve_file_not_super
          | discriminate
          | match goal with
            | |- context [match ?x with Some _ => _ | None => _ end] =>
                destruct x; discriminate
            end ]
  | intros K; exfalso; revert K;
    apply not_false_iff_true;
    unfold routed; simpl existsb;
    repeat rewrite orb_true_iff; tauto ].

(** X15.  [do_GET] hands the request over to the default handler of the
    library exactly when the path is none of the pages, none of the API
    paths, and starts with none of [/device/], [/static/] and
    [/api/devices/]; no request for a routed path reaches the files of the
    working directory that way. *)
Theorem do_GET_delegates_unrouted (rt : runtime) (req : request) (path : string) :
  urlparse_path rt (self_path req) = Some path ->
  (handle rt GET req = Super_do_GET <-> routed path = false).
Proof.
  intros H. change (delegated_iff_unrouted path (handle rt GET req)).
  unfold handle, do_GET. rewrite H.
  split_route_eqn;
    repeat match goal with
           | E : _ || _ = false |- _ =>
               apply orb_false_iff in E; destruct E
           | E : _ || _ = true |- _ =>
               apply orb_true_iff in E
           | E : _ && _ = true |- _ =>
               apply andb_true_iff in E; destruct E
           end;
    try (unfold delegated_iff_unrouted; taken_route).
  unfold delegated_iff_unrouted. split; [intros _ | reflexivity].
  unfold routed. simpl existsb.
  repeat rewrite orb_false_iff. tauto.
Qed.

Lemma do_GET_delegates_unrouted_witness :
  handle Sample.rt GET (Sample.bare "/favicon.ico") = Super_do_GET.
Proof.
  apply (do_GET_delegates_unrouted Sample.rt (Sample.bare "/favicon.ico")
           "/favicon.ico" eq_refl).
  reflexivity.
Defined.
